(** * assistant.py: a command-line relay to a hosted assistant service

    A shallow embedding of [src/assistant.py].  Every call the script makes
    to the outside (the OpenAI client, the terminal, the clock, the file
    system, a child process) is an event of an interaction tree; the
    script's functions are trees over those events, with Python exceptions
    carried in the result.  The outside is given meaning by a handler over a
    scripted environment that also records the calls in order. *)

From Stdlib Require Import String Ascii List ZArith Lia.
From Stdlib Require Import DecimalString SpecFloat.
From Stdlib Require QArith.
From ITree Require Import ITree ITreeFacts Events.State Events.StateFacts.
From ITree Require Import Props.Leaf.
From stdpp Require Import gmap strings.

Local Open Scope string_scope.
Local Open Scope list_scope.

(** ** Strings and the colorama constants *)

Definition nl : string := String (ascii_of_nat 10) EmptyString.
Definition esc : string := String (ascii_of_nat 27) EmptyString.

(** [colorama.Fore] and [colorama.Style]: ANSI escape sequences. *)
Module Fore.
Definition RED : string := esc +:+ "[31m".
Definition GREEN : string := esc +:+ "[32m".
Definition YELLOW : string := esc +:+ "[33m".
Definition BLUE : string := esc +:+ "[34m".
Definition CYAN : string := esc +:+ "[36m".
End Fore.

Module Style.
Definition RESET_ALL : string := esc +:+ "[0m".
End Style.

(** [sep.join(parts)] *)
Fixpoint join (sep : string) (parts : list string) : string :=
  match parts with
  | [] => ""
  | [p] => p
  | p :: rest => p +:+ sep +:+ join sep rest
  end.

(** Lines 13-17. *)
Definition continuation_prompt : string :=
  join nl
    [ "Based on the information given, what are the most logical next steps or conclusions?"
    ; "Analyze all previous interaction and ask for clarification from a different expert if one contradicts itself."
    ; "Please make sure that the solution is accurate, directly answers the original question, and follows all given constraints."
    ; "Additionally, review the final solution or have another expert(s) verify it."
    ; "If you were asked for any clarification, please provide it. Remember that experts cannot recall any previous interaction so provide all necessary details."
    ].

(** ** Python exceptions *)

(** Instances of [Exception] that this script can meet.  [str_exception]
    is [str(e)]. *)
Inductive exception : Type :=
| OpenAIError (msg : string)
| IndexError (msg : string)
| KeyError (key : string)
| TypeError (msg : string)
| AttributeError (msg : string)
| JSONDecodeError (msg : string)
| OSError (msg : string)
| EOFError (msg : string)
| CalledProcessError (returncode : Z) (stderr : string) (msg : string)
| OtherException (msg : string).

Definition str_exception (e : exception) : string :=
  match e with
  | OpenAIError m | IndexError m | TypeError m | AttributeError m
  | JSONDecodeError m | OSError m | EOFError m | OtherException m => m
  | KeyError k => "'" +:+ k +:+ "'"
  | CalledProcessError _ _ m => m
  end.

(** [BaseException]: an [Exception], or the [SystemExit] of [sys.exit]. *)
Inductive exn : Type :=
| Exc (e : exception)
| SystemExit (code : Z).

Inductive result (A : Type) : Type :=
| Ok (a : A)
| Raise (e : exn).
Arguments Ok {A} a.
Arguments Raise {A} e.

(** The exit status of the interpreter once [main()] is over: 0 after a
    normal return, the code of an uncaught [SystemExit], 1 after any other
    uncaught exception. *)
Definition exit_code (r : result unit) : Z :=
  match r with
  | Ok _ => 0
  | Raise (SystemExit c) => c
  | Raise (Exc _) => 1
  end.

(** ** Python values, as [json.loads] builds them *)

#[warnings="-register-all"]
Inductive pyval : Type :=
| PNone
| PBool (b : bool)
| PInt (z : Z)
| PFloat (f : spec_float)
| PStr (s : string)
| PList (l : list pyval)
| PDict (d : list (string * pyval)).

(** Truth value of an object ([if x], [x or y]). *)
Definition truthy (v : pyval) : bool :=
  match v with
  | PNone => false
  | PBool b => b
  | PInt z => negb (z =? 0)%Z
  | PFloat (S754_zero _) => false
  | PFloat _ => true
  | PStr s => negb (String.eqb s "")
  | PList l => match l with [] => false | _ => true end
  | PDict d => match d with [] => false | _ => true end
  end.

(** [x or y] *)
Definition py_or (x y : pyval) : pyval := if truthy x then x else y.

(** [d[key]] and [d.get(key)] on association lists (first binding). *)
Fixpoint assoc (key : string) (d : list (string * pyval)) : option pyval :=
  match d with
  | [] => None
  | (k, v) :: rest => if String.eqb k key then Some v else assoc key rest
  end.

(** [args[key]] with a [str] key *)
Definition getitem (args : pyval) (key : string) : result pyval :=
  match args with
  | PDict d =>
      match assoc key d with
      | Some v => Ok v
      | None => Raise (Exc (KeyError key))
      end
  | PList _ => Raise (Exc (TypeError "list indices must be integers or slices, not str"))
  | PStr _ => Raise (Exc (TypeError "string indices must be integers, not 'str'"))
  | PNone => Raise (Exc (TypeError "'NoneType' object is not subscriptable"))
  | PBool _ => Raise (Exc (TypeError "'bool' object is not subscriptable"))
  | PInt _ => Raise (Exc (TypeError "'int' object is not subscriptable"))
  | PFloat _ => Raise (Exc (TypeError "'float' object is not subscriptable"))
  end.

(** [args.get(key)]: [None] when the key is missing *)
Definition get (args : pyval) (key : string) : result pyval :=
  match args with
  | PDict d =>
      match assoc key d with
      | Some v => Ok v
      | None => Ok PNone
      end
  | PList _ => Raise (Exc (AttributeError "'list' object has no attribute 'get'"))
  | PStr _ => Raise (Exc (AttributeError "'str' object has no attribute 'get'"))
  | PNone => Raise (Exc (AttributeError "'NoneType' object has no attribute 'get'"))
  | PBool _ => Raise (Exc (AttributeError "'bool' object has no attribute 'get'"))
  | PInt _ => Raise (Exc (AttributeError "'int' object has no attribute 'get'"))
  | PFloat _ => Raise (Exc (AttributeError "'float' object has no attribute 'get'"))
  end.

(** ** The remote service's objects *)

Module FunctionCall.
Record t : Type := mk { name : string; arguments : string }.
End FunctionCall.

Module ToolCall.
Record t : Type := mk { id : string; function : FunctionCall.t }.
End ToolCall.

(** A run snapshot.  [required_action] is
    [run.required_action.submit_tool_outputs.tool_calls], absent when the
    run has no required action. *)
Module Run.
Record t : Type := mk
  { thread_id : string
  ; id : string
  ; status : string
  ; required_action : option (list ToolCall.t) }.
End Run.

Module ToolOutput.
Record t : Type := mk { tool_call_id : string; output : string }.
End ToolOutput.

(** One block of a message's [content] list. *)
Inductive ContentBlock : Type :=
| TextBlock (value : string)
| ImageFileBlock (file_id : string).

Module Message.
Record t : Type := mk { id : string; content : list ContentBlock }.
End Message.

(** A chat completion: [choices[i].message.content], which may be null. *)
Module ChatCompletion.
Record t : Type := mk { choices : list (option string) }.
End ChatCompletion.

Module ChatMessage.
Record t : Type := mk { role : string; content : pyval }.
End ChatMessage.

Module Payload.
Record t : Type := mk
  { model : string
  ; messages : list ChatMessage.t
  ; temperature : QArith_base.Q }.
End Payload.

(** ** The script's monad: a tree of outside calls ending in a result *)

Notation "x <- t ;;; k" := (ITree.bind t (fun x => k))
  (at level 62, t at next level, right associativity).

(** Sequencing that stops at the first exception. *)
Definition bindM {E : Type -> Type} {A B : Type}
  (t : itree E (result A)) (k : A -> itree E (result B)) : itree E (result B) :=
  r <- t ;;;
  match r with
  | Ok a => k a
  | Raise e => Ret (Raise e)
  end.

Notation "x <-? t ;;; k" := (bindM t (fun x => k))
  (at level 62, t at next level, right associativity).

Definition pure {E : Type -> Type} {A : Type} (r : result A) : itree E (result A) :=
  Ret r.

(** [try: body  except C as e: handler]: [catches e] is the handler when
    [e] is an instance of [C]. *)
Definition try_except {E : Type -> Type} {A : Type}
  (body : itree E (result A))
  (catches : exn -> option (itree E (result A))) : itree E (result A) :=
  r <- body ;;;
  match r with
  | Ok a => Ret (Ok a)
  | Raise e =>
      match catches e with
      | Some handler => handler
      | None => Ret (Raise e)
      end
  end.

(** [try: body  finally: cleanup]: the clean-up runs on every way out of
    the body, and an exception of the clean-up replaces the body's
    outcome. *)
Definition try_finally {E : Type -> Type} {A : Type}
  (body : itree E (result A)) (cleanup : itree E (result unit))
  : itree E (result A) :=
  r <- body ;;;
  c <- cleanup ;;;
  match c with
  | Ok _ => Ret r
  | Raise e => Ret (Raise e)
  end.

(** [while True: body]: the body either goes round again with a new loop
    state ([continue_with]), leaves the loop with a value ([break_with]),
    or raises. *)
Definition continue_with {E : Type -> Type} {S R : Type} (s : S)
  : itree E (result (S + R)) := Ret (Ok (inl s)).

Definition break_with {E : Type -> Type} {S R : Type} (v : R)
  : itree E (result (S + R)) := Ret (Ok (inr v)).

Definition loop_step {E : Type -> Type} {S R : Type}
  (body : S -> itree E (result (S + R))) (s : S) : itree E (S + result R) :=
  r <- body s ;;;
  match r with
  | Ok (inl s') => Ret (inl s')
  | Ok (inr v) => Ret (inr (Ok v))
  | Raise e => Ret (inr (Raise e))
  end.

Definition while_true {E : Type -> Type} {S R : Type}
  (body : S -> itree E (result (S + R))) (s : S) : itree E (result R) :=
  ITree.iter (loop_step body) s.

(** ** Calls to the outside made by the assistant *)

Inductive call : Type :=
| OpenAI_new
| ChatCompletionsCreate (payload : Payload.t)
| ThreadsCreateAndRun (assistant_id : string) (messages : list ChatMessage.t)
| RunsRetrieve (thread_id run_id : string)
| RunsSubmitToolOutputs (thread_id run_id : string) (tool_outputs : list ToolOutput.t)
| MessagesList (thread_id : string) (after : option string)
| Print (text : string)
| Input
| Sleep (seconds : Z).

(** What each call gives back to the script. *)
Definition resp (c : call) : Type :=
  match c with
  | OpenAI_new => result unit
  | ChatCompletionsCreate _ => result ChatCompletion.t
  | ThreadsCreateAndRun _ _ => result Run.t
  | RunsRetrieve _ _ => result Run.t
  | RunsSubmitToolOutputs _ _ _ => result Run.t
  | MessagesList _ _ => result (list Message.t)
  | Print _ => unit
  | Input => result string
  | Sleep _ => unit
  end.

Variant callE : Type -> Type :=
| Call (c : call) : callE (resp c).

Definition do (c : call) : itree callE (resp c) := ITree.trigger (Call c).
Arguments do : simpl never.

(** The client object is a handle on the service. *)
Definition Client : Type := unit.

(** ** The scripted outside *)

(** An outside call returns a value or raises an [Exception]. *)
Definition answer (A : Type) : Type := (exception + A)%type.

Definition to_result {A : Type} (a : answer A) : result A :=
  match a with
  | inl e => Raise (Exc e)
  | inr v => Ok v
  end.

(** The outside, as the script can observe it: what the n-th call of each
    kind gives back. *)
Module Remote.
Record t : Type := mk
  { client_init : answer unit
  ; stdin : nat -> answer string
  ; chat_completions : nat -> answer ChatCompletion.t
  ; create_and_run : nat -> answer Run.t
  ; retrieve : nat -> answer Run.t
  ; submit_tool_outputs : nat -> answer Run.t
  ; messages_list : nat -> answer (list Message.t) }.
End Remote.

Definition is_chat (c : call) : bool :=
  match c with ChatCompletionsCreate _ => true | _ => false end.
Definition is_create_and_run (c : call) : bool :=
  match c with ThreadsCreateAndRun _ _ => true | _ => false end.
Definition is_retrieve (c : call) : bool :=
  match c with RunsRetrieve _ _ => true | _ => false end.
Definition is_submit (c : call) : bool :=
  match c with RunsSubmitToolOutputs _ _ _ => true | _ => false end.
Definition is_messages_list (c : call) : bool :=
  match c with MessagesList _ _ => true | _ => false end.
Definition is_input (c : call) : bool :=
  match c with Input => true | _ => false end.
Definition is_sleep (c : call) : bool :=
  match c with Sleep _ => true | _ => false end.

(** A call that goes over the network to the service. *)
Definition is_remote (c : call) : bool :=
  is_chat c || is_create_and_run c || is_retrieve c || is_submit c
  || is_messages_list c.

(** How many calls of a kind the log holds. *)
Definition occurrences (p : call -> bool) (log : list call) : nat :=
  length (List.filter p log).

Definition respond (rm : Remote.t) (log : list call) (c : call) : resp c :=
  match c with
  | OpenAI_new => to_result (Remote.client_init rm)
  | ChatCompletionsCreate _ =>
      to_result (Remote.chat_completions rm (occurrences is_chat log))
  | ThreadsCreateAndRun _ _ =>
      to_result (Remote.create_and_run rm (occurrences is_create_and_run log))
  | RunsRetrieve _ _ =>
      to_result (Remote.retrieve rm (occurrences is_retrieve log))
  | RunsSubmitToolOutputs _ _ _ =>
      to_result (Remote.submit_tool_outputs rm (occurrences is_submit log))
  | MessagesList _ _ =>
      to_result (Remote.messages_list rm (occurrences is_messages_list log))
  | Print _ => tt
  | Input => to_result (Remote.stdin rm (occurrences is_input log))
  | Sleep _ => tt
  end.

(** The handler: answer from the script and append the call to the log. *)
Definition handle_call (rm : Remote.t) : callE ~> Monads.stateT (list call) (itree void1) :=
  fun _ e log =>
    match e with
    | Call c => Ret (log ++ [c], respond rm log c)
    end.

(** [runs_to h t s s' r]: under the handler [h] and from the state [s],
    the tree [t] stops with result [r] in the state [s']. *)
Definition runs_to {E : Type -> Type} {S R : Type}
  (h : E ~> Monads.stateT S (itree void1)) (t : itree E R)
  (s s' : S) (r : R) : Prop :=
  interp_state h t s ≈ Ret (s', r).

(** Running a closed tree for at most [n] steps. *)
Fixpoint run_fuel {R : Type} (n : nat) (t : itree void1 R) : option R :=
  match n with
  | O => None
  | S n' =>
      match observe t with
      | RetF r => Some r
      | TauF t' => run_fuel n' t'
      | VisF e _ => match e in void1 _ with end
      end
  end.

Definition exec {E : Type -> Type} {S R : Type}
  (h : E ~> Monads.stateT S (itree void1)) (fuel : nat) (t : itree E R)
  (s : S) : option (S * R) :=
  run_fuel fuel (interp_state h t s).

(** ** The assistant (lines 20-161) *)

Section Assistant.

(** [json.loads]: a value, or a [JSONDecodeError]. *)
Variable json_loads : string -> result pyval.

(** [str] of a float, a list or a dict (the interpreter's own rendering). *)
Variable str_other : pyval -> string.

(** [str(v)], as an f-string field renders it. *)
Definition str (v : pyval) : string :=
  match v with
  | PStr s => s
  | PNone => "None"
  | PBool true => "True"
  | PBool false => "False"
  | PInt z => NilZero.string_of_int (Z.to_int z)
  | PFloat _ | PList _ | PDict _ => str_other v
  end.

(** Lines 20-25. *)
Definition handle_user_input : itree callE (result string) :=
  _ <- do (Print (Fore.CYAN +:+ " User Command:")) ;;;
  _ <- do (Print Style.RESET_ALL) ;;;
  do Input.

(** Lines 30-37. *)
Definition expert_payload (name persona instructions : pyval) : Payload.t :=
  Payload.mk "gpt-4-turbo-preview"
    [ ChatMessage.mk "system"
        (PStr ("You are an " +:+ str name +:+ ". " +:+ str persona))
    ; ChatMessage.mk "user" instructions ]
    (QArith_base.Qmake 2 10).

(** Lines 28-44.  Gives the completion text, or [None] after printing an
    [OpenAIError]; any other exception goes on to the caller. *)
Definition handle_contact_expert (client : Client)
  (name persona instructions : pyval) : itree callE (result (option string)) :=
  let payload := expert_payload name persona instructions in
  try_except
    (response <-? do (ChatCompletionsCreate payload) ;;;
     match ChatCompletion.choices response with
     | content :: _ => pure (Ok content)
     | [] => pure (Raise (Exc (IndexError "list index out of range")))
     end)
    (fun e =>
       match e with
       | Exc (OpenAIError m) =>
           Some (_ <- do (Print (str_exception (OpenAIError m))) ;;;
                 pure (Ok None))
       | _ => None
       end).

(** The four statuses at which [check_run] returns. *)
Definition stops_polling (status : string) : bool :=
  String.eqb status "completed"
  || String.eqb status "expired" || String.eqb status "failed"
  || String.eqb status "requires_action".

(** Lines 71-87: one round of the polling loop. *)
Definition check_run_body (client : Client) (run : Run.t)
  : itree callE (result (Run.t + Run.t)) :=
  run <-? do (RunsRetrieve (Run.thread_id run) (Run.id run)) ;;;
  if String.eqb (Run.status run) "completed" then
    _ <- do (Print (Fore.GREEN +:+ " Run is completed." +:+ Style.RESET_ALL)) ;;;
    break_with run
  else if String.eqb (Run.status run) "expired"
          || String.eqb (Run.status run) "failed" then
    _ <- do (Print (Fore.RED +:+ "Run is " +:+ Run.status run +:+ "."
                    +:+ Style.RESET_ALL)) ;;;
    break_with run
  else if String.eqb (Run.status run) "requires_action" then
    _ <- do (Print (Fore.YELLOW +:+ " OpenAI: Running function..."
                    +:+ Run.status run +:+ " " +:+ Style.RESET_ALL)) ;;;
    break_with run
  else
    _ <- do (Print (Fore.YELLOW +:+ " OpenAI: Run is not yet completed. Waiting..."
                    +:+ Run.status run +:+ " " +:+ Style.RESET_ALL)) ;;;
    _ <- do (Sleep 1) ;;;
    continue_with run.

(** Lines 68-87. *)
Definition check_run (client : Client) (run : Run.t) : itree callE (result Run.t) :=
  while_true (check_run_body client) run.

(** Truth value of an optional string ([if response:], [if last_id]). *)
Definition truthy_str (s : option string) : bool :=
  match s with
  | Some s => negb (String.eqb s "")
  | None => false
  end.

(** Lines 101-118: the tool outputs built for the first tool call. *)
Definition build_tool_outputs (client : Client) (tool_call : ToolCall.t)
  : itree callE (result (list ToolOutput.t)) :=
  if String.eqb (FunctionCall.name (ToolCall.function tool_call)) "contact_expert"
  then
    args <-? pure (json_loads (FunctionCall.arguments (ToolCall.function tool_call))) ;;;
    name <-? pure (getitem args "name") ;;;
    persona <-? pure (get args "persona") ;;;
    instructions <-? pure (getitem args "instructions") ;;;
    _ <- do (Print (Fore.BLUE +:+ " " +:+ str name +:+ ": "
                    +:+ str (py_or persona (PStr "")) +:+ nl
                    +:+ str instructions +:+ " " +:+ Style.RESET_ALL)) ;;;
    response <-? handle_contact_expert client name persona instructions ;;;
    match response with
    | Some text =>
        if truthy_str response then
          _ <- do (Print (Fore.CYAN +:+ " " +:+ str name +:+ ": " +:+ text
                          +:+ " " +:+ Style.RESET_ALL)) ;;;
          pure (Ok [ ToolOutput.mk (ToolCall.id tool_call)
                       (join (nl +:+ nl) [text; continuation_prompt]) ])
        else pure (Ok [])
    | None => pure (Ok [])
    end
  else pure (Ok []).

(** Lines 132-134. *)
Fixpoint print_messages (data : list Message.t) : itree callE (result unit) :=
  match data with
  | [] => pure (Ok tt)
  | message :: rest =>
      match Message.content message with
      | TextBlock assistant_message :: _ =>
          _ <- do (Print (Fore.BLUE +:+ " Assistant: " +:+ assistant_message
                          +:+ " " +:+ Style.RESET_ALL)) ;;;
          print_messages rest
      | ImageFileBlock _ :: _ => pure (Raise (Exc (KeyError "text")))
      | [] => pure (Raise (Exc (IndexError "list index out of range")))
      end
  end.

(** Lines 95-137: one round of the driver's loop.  The loop state is the
    pair of [run] and [last_id]. *)
Definition run_assistant_body (client : Client) (st : Run.t * option string)
  : itree callE (result ((Run.t * option string) + unit)) :=
  let '(run, last_id) := st in
  run <-? check_run client run ;;;
  if String.eqb (Run.status run) "requires_action" then
    match Run.required_action run with
    | None =>
        pure (Raise (Exc (AttributeError
          "'NoneType' object has no attribute 'submit_tool_outputs'")))
    | Some [] => pure (Raise (Exc (IndexError "list index out of range")))
    | Some (tool_call :: _) =>
        tool_outputs <-? build_tool_outputs client tool_call ;;;
        match tool_outputs with
        | [] => continue_with (run, last_id)
        | _ :: _ =>
            run <-? do (RunsSubmitToolOutputs (Run.thread_id run) (Run.id run)
                          tool_outputs) ;;;
            continue_with (run, last_id)
        end
    end
  else
    let query_params := if truthy_str last_id then last_id else None in
    data <-? do (MessagesList (Run.thread_id run) query_params) ;;;
    match last data with
    | None => pure (Raise (Exc (IndexError "list index out of range")))
    | Some last_message =>
        let last_id := Some (Message.id last_message) in
        _ <-? print_messages data ;;;
        if String.eqb (Run.status run) "completed" then break_with tt
        else continue_with (run, last_id)
    end.

(** Lines 90-137. *)
Definition run_assistant (client : Client) (run : Run.t) : itree callE (result unit) :=
  while_true (run_assistant_body client) (run, None).

(** Lines 140-161. *)
Definition main : itree callE (result unit) :=
  client <-? do OpenAI_new ;;;
  user_input <-? handle_user_input ;;;
  if String.eqb user_input "quit" then pure (Raise (SystemExit 0))
  else
    try_except
      (run <-? do (ThreadsCreateAndRun "asst_5ulsgCs9B3ESY3tfs9Ohtvyb"
                     [ ChatMessage.mk "user" (PStr user_input) ]) ;;;
       run_assistant client run)
      (fun e =>
         match e with
         | Exc e =>
             Some (_ <- do (Print (str_exception e)) ;;;
                   pure (Raise (SystemExit 1)))
         | SystemExit _ => None
         end).

End Assistant.

(** ** The script runner (lines 47-65) *)

Module CompletedProcess.
Record t : Type := mk { returncode : Z; stdout : string; stderr : string }.
End CompletedProcess.

(** Calls to the operating system. *)
Inductive syscall : Type :=
| NamedTemporaryFile (suffix : string) (delete : bool)
| FileWrite (name : string) (data : string)
| FileFlush (name : string)
| FileClose (name : string)
| SubprocessRun (args : list string) (capture_output text check : bool)
| OsRemove (path : string).

Definition sysresp (c : syscall) : Type :=
  match c with
  | NamedTemporaryFile _ _ => result string
  | FileWrite _ _ => result unit
  | FileFlush _ => result unit
  | FileClose _ => unit
  | SubprocessRun _ _ _ _ => result CompletedProcess.t
  | OsRemove _ => result unit
  end.

Variant sysE : Type -> Type :=
| Sys (c : syscall) : sysE (sysresp c).

Definition sys (c : syscall) : itree sysE (sysresp c) := ITree.trigger (Sys c).
Arguments sys : simpl never.

(** The file system: the content of every existing path. *)
Definition files : Type := gmap string string.

(** What the script cannot decide: the name picked for a temporary file,
    whether the disk takes the data, and what a child process does to the
    file system and how it ends ([inl] when it cannot be started). *)
Module OS.
Record t : Type := mk
  { tmp_name : files -> string -> answer string
  ; write_fails : option exception
  ; flush_fails : option exception
  ; child : list string -> files -> files * answer CompletedProcess.t
  ; describe_failure : list string -> Z -> string }.
End OS.

Definition fails (e : option exception) : result unit :=
  match e with
  | Some e => Raise (Exc e)
  | None => Ok tt
  end.

(** One call against the file system [fs]. *)
Definition sys_respond (os : OS.t) (fs : files) (c : syscall) : files * sysresp c :=
  match c with
  | NamedTemporaryFile suffix _ =>
      match OS.tmp_name os fs suffix with
      | inr name =>
          match fs !! name with
          | None => (<[name := ""]> fs, Ok name)
          | Some _ => (fs, Raise (Exc (OSError "No usable temporary file name found")))
          end
      | inl e => (fs, Raise (Exc e))
      end
  | FileWrite name data =>
      match OS.write_fails os with
      | Some e => (fs, Raise (Exc e))
      | None =>
          match fs !! name with
          | Some old => (<[name := old +:+ data]> fs, Ok tt)
          | None => (fs, Ok tt)
          end
      end
  | FileFlush _ => (fs, fails (OS.flush_fails os))
  | FileClose _ => (fs, tt)
  | SubprocessRun args _ _ check =>
      let '(fs', outcome) := OS.child os args fs in
      match outcome with
      | inl e => (fs', Raise (Exc e))
      | inr cp =>
          if check && negb (CompletedProcess.returncode cp =? 0)%Z
          then (fs', Raise (Exc (CalledProcessError
                                   (CompletedProcess.returncode cp)
                                   (CompletedProcess.stderr cp)
                                   (OS.describe_failure os args
                                      (CompletedProcess.returncode cp)))))
          else (fs', Ok cp)
      end
  | OsRemove path =>
      match fs !! path with
      | Some _ => (delete path fs, Ok tt)
      | None =>
          (fs, Raise (Exc (OSError
             ("[Errno 2] No such file or directory: '" +:+ path +:+ "'"))))
      end
  end.

Definition handle_sys (os : OS.t)
  : sysE ~> Monads.stateT (files * list syscall) (itree void1) :=
  fun _ e st =>
    match e with
    | Sys c =>
        let '(fs', r) := sys_respond os (fst st) c in
        Ret ((fs', snd st ++ [c]), r)
    end.

(** Lines 47-65.  The text [s] stands for its UTF-8 encoding. *)
Definition execute_python_code_local (s : string) : itree sysE (result string) :=
  temp_file <-? sys (NamedTemporaryFile ".py" false) ;;;
  try_finally
    (let temp_file_name := temp_file in
     _ <-? sys (FileWrite temp_file s) ;;;
     _ <-? sys (FileFlush temp_file) ;;;
     try_finally
       (try_except
          (result <-? sys (SubprocessRun ["python"; temp_file_name] true true true) ;;;
           pure (Ok (CompletedProcess.stdout result)))
          (fun e =>
             match e with
             | Exc (CalledProcessError _ stderr _) => Some (pure (Ok stderr))
             | _ => None
             end))
       (sys (OsRemove temp_file_name)))
    (_ <- sys (FileClose temp_file) ;;; pure (Ok tt)).


(** * The vocabulary of the properties *)

(** The next [len] answers of a script, from the index [start] on. *)
Fixpoint upcoming {A : Type} (f : nat -> A) (start len : nat) : list A :=
  match len with
  | O => []
  | S len' => f start :: upcoming f (S start) len'
  end.

(** [polls rm log pending run]: from the log [log] on, the service answers
    the status queries with the snapshots [pending], none of them at a
    status that stops the polling, and then with [run], which is at one. *)
Definition polls (rm : Remote.t) (log : list call) (pending : list Run.t)
  (run : Run.t) : Prop :=
  upcoming (Remote.retrieve rm) (occurrences is_retrieve log) (S (length pending))
  = map inr (pending ++ [run])
  /\ forallb (fun r => negb (stops_polling (Run.status r))) pending = true
  /\ stops_polling (Run.status run) = true.

(** The line printed for a snapshot that does not stop the polling. *)
Definition waiting_line (run : Run.t) : string :=
  Fore.YELLOW +:+ " OpenAI: Run is not yet completed. Waiting..."
  +:+ Run.status run +:+ " " +:+ Style.RESET_ALL.

(** The line printed for a snapshot that stops the polling. *)
Definition stopping_line (run : Run.t) : string :=
  if String.eqb (Run.status run) "completed" then
    Fore.GREEN +:+ " Run is completed." +:+ Style.RESET_ALL
  else if String.eqb (Run.status run) "expired"
          || String.eqb (Run.status run) "failed" then
    Fore.RED +:+ "Run is " +:+ Run.status run +:+ "." +:+ Style.RESET_ALL
  else
    Fore.YELLOW +:+ " OpenAI: Running function..." +:+ Run.status run
    +:+ " " +:+ Style.RESET_ALL.

(** The calls of a polling that starts from the snapshot [run], sees the
    snapshots [pending] and stops at [final]: each query uses the ids of
    the latest snapshot, and each snapshot of [pending] is followed by one
    sleep of one second. *)
Fixpoint polling_calls (run : Run.t) (pending : list Run.t) (final : Run.t)
  : list call :=
  match pending with
  | [] =>
      [ RunsRetrieve (Run.thread_id run) (Run.id run)
      ; Print (stopping_line final) ]
  | r :: rest =>
      [ RunsRetrieve (Run.thread_id run) (Run.id run)
      ; Print (waiting_line r)
      ; Sleep 1 ]
      ++ polling_calls r rest final
  end.

(** The header printed before the expert is called (line 107). *)
Definition expert_header (str_other : pyval -> string)
  (name persona instructions : pyval) : string :=
  Fore.BLUE +:+ " " +:+ str str_other name +:+ ": "
  +:+ str str_other (py_or persona (PStr "")) +:+ nl
  +:+ str str_other instructions +:+ " " +:+ Style.RESET_ALL.

(** The line printed for the expert's reply (line 112). *)
Definition expert_reply_line (str_other : pyval -> string)
  (name : pyval) (reply : string) : string :=
  Fore.CYAN +:+ " " +:+ str str_other name +:+ ": " +:+ reply
  +:+ " " +:+ Style.RESET_ALL.

(** [rounds ... st log st' log']: some rounds of the driver's loop, none of
    which leaves it, lead from the loop state [st] and the log [log] to
    [st'] and [log']. *)
Inductive rounds (rm : Remote.t) (json_loads : string -> result pyval)
  (str_other : pyval -> string) (client : Client)
  : Run.t * option string -> list call ->
    Run.t * option string -> list call -> Prop :=
| rounds_none st log : rounds rm json_loads str_other client st log st log
| rounds_more st log st1 log1 st2 log2 :
    runs_to (handle_call rm)
      (run_assistant_body json_loads str_other client st) log log1
      (Ok (inl st1)) ->
    rounds rm json_loads str_other client st1 log1 st2 log2 ->
    rounds rm json_loads str_other client st log st2 log2.

(** The text of a message as the driver reads it: the value of its first
    content block, when that block is a text block. *)
Definition first_text (message : Message.t) : option string :=
  match Message.content message with
  | TextBlock value :: _ => Some value
  | _ => None
  end.

(** The line printed for a message (line 134). *)
Definition assistant_line (text : string) : string :=
  Fore.BLUE +:+ " Assistant: " +:+ text +:+ " " +:+ Style.RESET_ALL.

(** The lines printed for a list of messages that all start with a text
    block; [None] when one of them does not. *)
Fixpoint printed_lines (data : list Message.t) : option (list call) :=
  match data with
  | [] => Some []
  | message :: rest =>
      match first_text message, printed_lines rest with
      | Some text, Some lines => Some (Print (assistant_line text) :: lines)
      | _, _ => None
      end
  end.

(** The [after] cursor sent with a message listing (line 128). *)
Definition after_cursor (last_id : option string) : option string :=
  if truthy_str last_id then last_id else None.

(** The calls of [main] before the run is created. *)
Definition prelude_calls : list call :=
  [ OpenAI_new
  ; Print (Fore.CYAN +:+ " User Command:")
  ; Print Style.RESET_ALL
  ; Input ].

Definition create_call (user_input : string) : call :=
  ThreadsCreateAndRun "asst_5ulsgCs9B3ESY3tfs9Ohtvyb"
    [ ChatMessage.mk "user" (PStr user_input) ].

(** The persona read from the arguments of a [contact_expert] call:
    [None] when the field is missing (line 104). *)
Definition persona_of (d : list (string * pyval)) : pyval :=
  match assoc "persona" d with
  | Some v => v
  | None => PNone
  end.

(** The tool output that carries an expert's reply (lines 114-117). *)
Definition reply_output (tool_call : ToolCall.t) (reply : string) : ToolOutput.t :=
  ToolOutput.mk (ToolCall.id tool_call)
    (reply +:+ nl +:+ nl +:+ continuation_prompt).

(** * Example services *)

Module Demo.

Definition dq : string := String (ascii_of_nat 34) EmptyString.
Definition quoted (s : string) : string := dq +:+ s +:+ dq.

(** The JSON text [{"name": "Expert Chef", "instructions": "Suggest a menu"}]. *)
Definition chef_arguments : string :=
  "{" +:+ quoted "name" +:+ ": " +:+ quoted "Expert Chef" +:+ ", "
  +:+ quoted "instructions" +:+ ": " +:+ quoted "Suggest a menu" +:+ "}".

Definition chef_dict : list (string * pyval) :=
  [ ("name", PStr "Expert Chef"); ("instructions", PStr "Suggest a menu") ].

(** [json.loads] on the one text the examples send. *)
Definition loads (s : string) : result pyval :=
  if String.eqb s chef_arguments then Ok (PDict chef_dict)
  else Raise (Exc (JSONDecodeError "Expecting value: line 1 column 1 (char 0)")).

(** No float, list or dict is printed in the examples. *)
Definition str_other (v : pyval) : string := "<object>".

Definition queued_run : Run.t := Run.mk "thread_1" "run_1" "queued" None.
Definition in_progress_run : Run.t := Run.mk "thread_1" "run_1" "in_progress" None.
Definition completed_run : Run.t := Run.mk "thread_1" "run_1" "completed" None.
Definition failed_run : Run.t := Run.mk "thread_1" "run_1" "failed" None.

Definition chef_call : ToolCall.t :=
  ToolCall.mk "call_1" (FunctionCall.mk "contact_expert" chef_arguments).

Definition action_run : Run.t :=
  Run.mk "thread_1" "run_1" "requires_action" (Some [ chef_call ]).

Definition user_message : Message.t :=
  Message.mk "msg_1" [ TextBlock "Plan a trip" ].

(** A service with one user who types [line]; the status queries are
    answered by [retrieve], the completion requests by [chat] and the
    message listings by [listing]. *)
Definition service (line : string) (retrieve : nat -> answer Run.t)
  (chat : answer ChatCompletion.t) (listing : nat -> answer (list Message.t))
  : Remote.t :=
  Remote.mk (inr tt) (fun _ => inr line) (fun _ => chat)
    (fun _ => inr queued_run) retrieve (fun _ => inr in_progress_run) listing.

Definition no_chat : answer ChatCompletion.t := inl (OpenAIError "Connection error.").

(** queued, in_progress, then completed. *)
Definition happy : Remote.t :=
  service "Plan a trip"
    (fun n => match n with
              | 0 => inr queued_run
              | 1 => inr in_progress_run
              | _ => inr completed_run
              end)
    no_chat (fun _ => inr [ user_message ]).

(** The run fails; the thread holds the user's message and nothing after it. *)
Definition failing : Remote.t :=
  service "Plan a trip" (fun _ => inr failed_run) no_chat
    (fun n => match n with
              | 0 => inr [ user_message ]
              | _ => inr []
              end).

(** The run asks for an expert, who gives [chat]. *)
Definition asking (chat : answer ChatCompletion.t) : Remote.t :=
  service "Plan a trip" (fun _ => inr action_run) chat
    (fun _ => inr [ user_message ]).

Definition quitting : Remote.t :=
  service "quit" (fun _ => inr completed_run) no_chat (fun _ => inr []).

End Demo.

(** * The vocabulary of the script runner's properties *)

(** The calls of [execute_python_code_local] on a script that reaches the
    child process, [name] being the temporary file. *)
Definition script_calls (name s : string) : list syscall :=
  [ NamedTemporaryFile ".py" false
  ; FileWrite name s
  ; FileFlush name
  ; SubprocessRun ["python"; name] true true true
  ; OsRemove name
  ; FileClose name ].

(** The file system the child process starts in: the temporary file holds
    the script. *)
Definition with_script (name s : string) (fs : files) : files :=
  <[name := s]> fs.

(** What the [try] block of lines 53-62 yields for an outcome of the
    child process. *)
Definition captured (outcome : answer CompletedProcess.t) : result string :=
  match outcome with
  | inr cp =>
      if (CompletedProcess.returncode cp =? 0)%Z
      then Ok (CompletedProcess.stdout cp)
      else Ok (CompletedProcess.stderr cp)
  | inl (CalledProcessError _ stderr _) => Ok stderr
  | inl e => Raise (Exc e)
  end.

Module DemoOS.

Definition tmp : string := "/tmp/tmpq1w2e3r4.py".


(** A child that ends with status 1 after writing to its error stream. *)
Definition raising : OS.t :=
  OS.mk (fun _ _ => inr tmp) None None
    (fun _ fs => (fs, inr (CompletedProcess.mk 1 "" "ValueError: x")))
    (fun _ _ => "Command returned non-zero exit status.").



End DemoOS.

(** * The vocabulary of the further properties *)

(** [ensures h t s Q]: whenever the tree [t], run from the state [s],
    stops, the final state and the result satisfy [Q]. *)
Definition ensures {E : Type -> Type} {S R : Type}
  (h : E ~> Monads.stateT S (itree void1)) (t : itree E R) (s : S)
  (Q : S -> R -> Prop) : Prop :=
  forall (s' : S) (r : R), runs_to h t s s' r -> Q s' r.

(** [never_returns h t s]: run from [s], the tree [t] does not stop. *)
Definition never_returns {E : Type -> Type} {S R : Type}
  (h : E ~> Monads.stateT S (itree void1)) (t : itree E R) (s : S) : Prop :=
  forall (s' : S) (r : R), ~ runs_to h t s s' r.

(** The calls of a polling for as long as it sees the snapshots
    [pending], none of which stops it. *)
Fixpoint waiting_calls (run : Run.t) (pending : list Run.t) : list call :=
  match pending with
  | [] => []
  | r :: rest =>
      [ RunsRetrieve (Run.thread_id run) (Run.id run)
      ; Print (waiting_line r)
      ; Sleep 1 ]
      ++ waiting_calls r rest
  end.

(** The snapshot whose ids the next status query carries. *)
Fixpoint latest (run : Run.t) (pending : list Run.t) : Run.t :=
  match pending with
  | [] => run
  | r :: rest => latest r rest
  end.

(** The calls a polling is made of: a status query, a printed line, a
    sleep of one second. *)
Definition is_polling_call (c : call) : bool :=
  match c with
  | RunsRetrieve _ _ | Print _ => true
  | Sleep seconds => (seconds =? 1)%Z
  | _ => false
  end.

(** A service on which the run stays at one status for ever. *)
Definition stuck_at (status : string) : Remote.t :=
  Demo.service "Plan a trip"
    (fun _ => inr (Run.mk "thread_1" "run_1" status None))
    Demo.no_chat (fun _ => inr [ Demo.user_message ]).

(** A service whose status query fails after one snapshot. *)
Definition dropping : Remote.t :=
  Demo.service "Plan a trip"
    (fun n => match n with
              | 0 => inr Demo.queued_run
              | _ => inl (OpenAIError "Connection error.")
              end)
    Demo.no_chat (fun _ => inr [ Demo.user_message ]).

(** A run that asks for a tool the driver does not know. *)
Definition weather_call : ToolCall.t :=
  ToolCall.mk "call_2" (FunctionCall.mk "get_weather" "{}").

Definition weather_run : Run.t :=
  Run.mk "thread_1" "run_1" "requires_action" (Some [ weather_call ]).

(** A run that requires action and names no tool call. *)
Definition bare_action_run : Run.t :=
  Run.mk "thread_1" "run_1" "requires_action" (Some []).

(** A [contact_expert] call whose arguments are not JSON. *)
Definition garbled_call : ToolCall.t :=
  ToolCall.mk "call_3" (FunctionCall.mk "contact_expert" "{name: ").

Definition garbled_run : Run.t :=
  Run.mk "thread_1" "run_1" "requires_action" (Some [ garbled_call ]).

(** A service on which every status query answers [run]. *)
Definition always (run : Run.t) (chat : answer ChatCompletion.t)
  (listing : answer (list Message.t)) : Remote.t :=
  Demo.service "Plan a trip" (fun _ => inr run) chat (fun _ => listing).

(** [json.loads] on a text whose object has no [name]. *)
Definition nameless_loads (s : string) : result pyval :=
  Ok (PDict [ ("instructions", PStr "Suggest a menu") ]).

Definition picture_message : Message.t :=
  Message.mk "msg_2" [ ImageFileBlock "file_1" ].

(** The expert answers, and the run is completed after the submission. *)
Definition answering : Remote.t :=
  Demo.service "Plan a trip"
    (fun n => match n with
              | 0 => inr Demo.action_run
              | _ => inr Demo.completed_run
              end)
    (inr (ChatCompletion.mk [ Some "Try the risotto." ]))
    (fun _ => inr [ Demo.user_message ]).

(** A call that starts a child process or removes a file. *)
Definition starts_or_removes (c : syscall) : bool :=
  match c with
  | SubprocessRun _ _ _ _ | OsRemove _ => true
  | _ => false
  end.

(** A disk that is full when the buffer is flushed. *)
Definition full_disk : OS.t :=
  OS.mk (fun _ _ => inr DemoOS.tmp) None
    (Some (OSError "[Errno 28] No space left on device"))
    (fun _ fs => (fs, inr (CompletedProcess.mk 0 "" "")))
    (fun _ _ => "Command returned non-zero exit status.").

(** A machine without the interpreter. *)
Definition no_interpreter : OS.t :=
  OS.mk (fun _ _ => inr DemoOS.tmp) None None
    (fun _ fs =>
       (fs, inl (OSError "[Errno 2] No such file or directory: 'python'")))
    (fun _ _ => "Command returned non-zero exit status.").
(** * Running trees: the rules of [runs_to] *)

Section RunsTo.

Context {E : Type -> Type} {S : Type}.
Variable h : E ~> Monads.stateT S (itree void1).

Lemma runs_to_ret {R : Type} (r : R) (s : S) : runs_to h (Ret r) s s r.
Proof. unfold runs_to. rewrite interp_state_ret. reflexivity. Qed.

Lemma runs_to_bind {A B : Type} (t : itree E A) (k : A -> itree E B)
  (s s1 s2 : S) (a : A) (b : B) :
  runs_to h t s s1 a -> runs_to h (k a) s1 s2 b ->
  runs_to h (ITree.bind t k) s s2 b.
Proof.
  unfold runs_to. intros Ht Hk.
  rewrite interp_state_bind, Ht, bind_ret_l. exact Hk.
Qed.

Lemma runs_to_trigger {X : Type} (e : E X) (s s' : S) (x : X) :
  h X e s ≈ Ret (s', x) -> runs_to h (ITree.trigger e) s s' x.
Proof.
  unfold runs_to. intros He. rewrite interp_state_trigger. exact He.
Qed.

(** A tree stops in at most one way. *)
Lemma runs_to_det {R : Type} (t : itree E R) (s s1 s2 : S) (r1 r2 : R) :
  runs_to h t s s1 r1 -> runs_to h t s s2 r2 -> s1 = s2 /\ r1 = r2.
Proof.
  unfold runs_to. intros H1 H2. rewrite H1 in H2.
  apply eutt_inv_Ret in H2. inversion H2. split; reflexivity.
Qed.

Lemma run_fuel_sound {R : Type} (n : nat) (t : itree void1 R) (r : R) :
  run_fuel n t = Some r -> t ≈ Ret r.
Proof.
  revert t. induction n as [|n IH]; intros t; cbn; [discriminate|].
  rewrite (itree_eta t) at 2.
  destruct (observe t) as [r'|t'|X e k].
  - intros [= ->]. reflexivity.
  - intros Ht. rewrite tau_eutt. apply IH, Ht.
  - destruct e.
Qed.

Lemma exec_sound {R : Type} (fuel : nat) (t : itree E R) (s s' : S) (r : R) :
  exec h fuel t s = Some (s', r) -> runs_to h t s s' r.
Proof. apply run_fuel_sound. Qed.

(** ** Sequencing with exceptions *)

Lemma runs_to_bindM_ok {A B : Type} (t : itree E (result A))
  (k : A -> itree E (result B)) (s s1 s2 : S) (a : A) (r : result B) :
  runs_to h t s s1 (Ok a) -> runs_to h (k a) s1 s2 r ->
  runs_to h (bindM t k) s s2 r.
Proof. intros Ht Hk. eapply runs_to_bind; [exact Ht | exact Hk]. Qed.

Lemma runs_to_bindM_raise {A B : Type} (t : itree E (result A))
  (k : A -> itree E (result B)) (s s1 : S) (e : exn) :
  runs_to h t s s1 (Raise e) -> runs_to h (bindM t k) s s1 (Raise e).
Proof. intros Ht. eapply runs_to_bind; [exact Ht | apply runs_to_ret]. Qed.

Lemma runs_to_try_except_ok {A : Type} (body : itree E (result A))
  (catches : exn -> option (itree E (result A))) (s s1 : S) (a : A) :
  runs_to h body s s1 (Ok a) -> runs_to h (try_except body catches) s s1 (Ok a).
Proof. intros Hb. eapply runs_to_bind; [exact Hb | apply runs_to_ret]. Qed.

Lemma runs_to_try_except_caught {A : Type} (body : itree E (result A))
  (catches : exn -> option (itree E (result A))) (handler : itree E (result A))
  (s s1 s2 : S) (e : exn) (r : result A) :
  runs_to h body s s1 (Raise e) -> catches e = Some handler ->
  runs_to h handler s1 s2 r ->
  runs_to h (try_except body catches) s s2 r.
Proof.
  intros Hb Hc Hh. eapply runs_to_bind; [exact Hb | cbn]. rewrite Hc. exact Hh.
Qed.

Lemma runs_to_try_except_uncaught {A : Type} (body : itree E (result A))
  (catches : exn -> option (itree E (result A))) (s s1 : S) (e : exn) :
  runs_to h body s s1 (Raise e) -> catches e = None ->
  runs_to h (try_except body catches) s s1 (Raise e).
Proof.
  intros Hb Hc. eapply runs_to_bind; [exact Hb | cbn]. rewrite Hc.
  apply runs_to_ret.
Qed.

Lemma runs_to_try_finally {A : Type} (body : itree E (result A))
  (cleanup : itree E (result unit)) (s s1 s2 : S) (r : result A)
  (c : result unit) :
  runs_to h body s s1 r -> runs_to h cleanup s1 s2 c ->
  runs_to h (try_finally body cleanup) s s2
    (match c with Ok _ => r | Raise e => Raise e end).
Proof.
  intros Hb Hc. eapply runs_to_bind; [exact Hb |].
  eapply runs_to_bind; [exact Hc |]. destruct c; apply runs_to_ret.
Qed.

(** ** The loop *)

Lemma runs_to_iter_continue {I R : Type} (step : I -> itree E (I + R))
  (i i' : I) (s s1 s2 : S) (r : R) :
  runs_to h (step i) s s1 (inl i') -> runs_to h (ITree.iter step i') s1 s2 r ->
  runs_to h (ITree.iter step i) s s2 r.
Proof.
  unfold runs_to. intros Hs Hr.
  rewrite unfold_iter, interp_state_bind, Hs, bind_ret_l. cbn.
  rewrite interp_state_tau, tau_eutt. exact Hr.
Qed.

Lemma runs_to_iter_stop {I R : Type} (step : I -> itree E (I + R))
  (i : I) (s s1 : S) (r : R) :
  runs_to h (step i) s s1 (inr r) -> runs_to h (ITree.iter step i) s s1 r.
Proof.
  unfold runs_to. intros Hs.
  rewrite unfold_iter, interp_state_bind, Hs, bind_ret_l. cbn.
  rewrite interp_state_ret. reflexivity.
Qed.

Lemma runs_to_while_continue {I R : Type}
  (body : I -> itree E (result (I + R))) (i i' : I) (s s1 s2 : S)
  (r : result R) :
  runs_to h (body i) s s1 (Ok (inl i')) ->
  runs_to h (while_true body i') s1 s2 r ->
  runs_to h (while_true body i) s s2 r.
Proof.
  intros Hb Hr. eapply runs_to_iter_continue; [|exact Hr].
  eapply runs_to_bind; [exact Hb | apply runs_to_ret].
Qed.

Lemma runs_to_while_break {I R : Type}
  (body : I -> itree E (result (I + R))) (i : I) (s s1 : S) (v : R) :
  runs_to h (body i) s s1 (Ok (inr v)) ->
  runs_to h (while_true body i) s s1 (Ok v).
Proof.
  intros Hb. apply runs_to_iter_stop.
  eapply runs_to_bind; [exact Hb | apply runs_to_ret].
Qed.

Lemma runs_to_while_raise {I R : Type}
  (body : I -> itree E (result (I + R))) (i : I) (s s1 : S) (e : exn) :
  runs_to h (body i) s s1 (Raise e) ->
  runs_to h (while_true body i) s s1 (Raise e).
Proof.
  intros Hb. apply runs_to_iter_stop.
  eapply runs_to_bind; [exact Hb | apply runs_to_ret].
Qed.

End RunsTo.

(** * The constants and the Python values on examples *)

Example continuation_prompt_length : String.length continuation_prompt = 549.
Proof. reflexivity. Qed.

Example continuation_prompt_lines :
  List.length (List.filter (Ascii.eqb (ascii_of_nat 10))
                 (list_ascii_of_string continuation_prompt)) = 4.
Proof. reflexivity. Qed.

Example str_of_values :
  str Demo.str_other (PInt (-12)) = "-12"
  /\ str Demo.str_other (PInt 0) = "0"
  /\ str Demo.str_other (PBool true) = "True"
  /\ str Demo.str_other PNone = "None"
  /\ str Demo.str_other (PStr "Expert Chef") = "Expert Chef".
Proof. repeat split; reflexivity. Qed.

Example truthy_values :
  truthy PNone = false
  /\ truthy (PStr "") = false
  /\ truthy (PStr "a chef") = true
  /\ truthy (PInt 0) = false
  /\ truthy (PFloat (S754_zero true)) = false
  /\ truthy (PFloat S754_nan) = true
  /\ truthy (PList []) = false
  /\ py_or PNone (PStr "") = PStr "".
Proof. repeat split; reflexivity. Qed.

Example chef_arguments_parse :
  Demo.loads Demo.chef_arguments = Ok (PDict Demo.chef_dict)
  /\ getitem (PDict Demo.chef_dict) "name" = Ok (PStr "Expert Chef")
  /\ get (PDict Demo.chef_dict) "persona" = Ok PNone
  /\ getitem (PDict Demo.chef_dict) "persona" = Raise (Exc (KeyError "persona")).
Proof. repeat split; reflexivity. Qed.

(** * The calls and their answers *)

Lemma runs_to_do (rm : Remote.t) (c : call) (log : list call) :
  runs_to (handle_call rm) (do c) log (log ++ [c]) (respond rm log c).
Proof. apply runs_to_trigger. reflexivity. Qed.

Lemma runs_to_eq {E : Type -> Type} {S R : Type}
  (h : E ~> Monads.stateT S (itree void1)) (t : itree E R)
  (s s1 s2 : S) (r1 r2 : R) :
  runs_to h t s s1 r1 -> s1 = s2 -> r1 = r2 -> runs_to h t s s2 r2.
Proof. intros Ht <- <-. exact Ht. Qed.

Lemma occurrences_app (p : call -> bool) (l1 l2 : list call) :
  occurrences p (l1 ++ l2) = occurrences p l1 + occurrences p l2.
Proof. unfold occurrences. rewrite List.filter_app, length_app. reflexivity. Qed.

(** A call whose answer is known, followed by the rest of the script. *)
Lemma runs_to_do_bind (rm : Remote.t) {B : Type} (c : call)
  (k : resp c -> itree callE B) (log log' : list call) (x : resp c) (b : B) :
  respond rm log c = x ->
  runs_to (handle_call rm) (k x) (log ++ [c]) log' b ->
  runs_to (handle_call rm) (ITree.bind (do c) k) log log' b.
Proof.
  intros <- Hk. eapply runs_to_bind; [apply runs_to_do | exact Hk].
Qed.

Lemma runs_to_ret_eq {E : Type -> Type} {S R : Type}
  (h : E ~> Monads.stateT S (itree void1)) (s s' : S) (r r' : R) :
  s = s' -> r = r' -> runs_to h (Ret r) s s' r'.
Proof. intros <- <-. apply runs_to_ret. Qed.

Lemma runs_to_bind_ret {E : Type -> Type} {S A B : Type}
  (h : E ~> Monads.stateT S (itree void1)) (a : A) (k : A -> itree E B)
  (s s' : S) (b : B) :
  runs_to h (k a) s s' b -> runs_to h (ITree.bind (Ret a) k) s s' b.
Proof. intros Hk. eapply runs_to_bind; [apply runs_to_ret | exact Hk]. Qed.

Lemma getitem_found (d : list (string * pyval)) (key : string) (v : pyval) :
  assoc key d = Some v -> getitem (PDict d) key = Ok v.
Proof. intros Hv. cbn. rewrite Hv. reflexivity. Qed.

Lemma get_persona (d : list (string * pyval)) :
  get (PDict d) "persona" = Ok (persona_of d).
Proof. unfold get, persona_of. destruct (assoc "persona" d); reflexivity. Qed.

(** One call of the script, answered from the log. *)
Ltac call_by tac :=
  lazymatch goal with
  | |- runs_to _ (ITree.bind (do ?c) ?k) _ _ _ =>
      eapply (runs_to_do_bind _ c k); [cbn; tac | cbn]
  end.

Ltac call_step := call_by ltac:(reflexivity).

Ltac finish_run :=
  apply runs_to_ret_eq; [rewrite <- ?app_assoc; reflexivity | reflexivity].

(** * The poller (lines 68-87) *)

Section Poller.

Variable rm : Remote.t.
Variable client : Client.

Lemma check_run_body_stops (run0 run : Run.t) (log : list call) :
  Remote.retrieve rm (occurrences is_retrieve log) = inr run ->
  stops_polling (Run.status run) = true ->
  runs_to (handle_call rm) (check_run_body client run0) log
    (log ++ [ RunsRetrieve (Run.thread_id run0) (Run.id run0)
            ; Print (stopping_line run) ])
    (Ok (inr run)).
Proof.
  intros Hret Hstop. unfold check_run_body, bindM, stopping_line.
  unfold stops_polling in Hstop.
  call_by ltac:(rewrite Hret; reflexivity).
  destruct (String.eqb (Run.status run) "completed"),
    (String.eqb (Run.status run) "expired"),
    (String.eqb (Run.status run) "failed"),
    (String.eqb (Run.status run) "requires_action");
    cbn in *; try discriminate; call_step; finish_run.
Qed.

Lemma check_run_body_waits (run0 run : Run.t) (log : list call) :
  Remote.retrieve rm (occurrences is_retrieve log) = inr run ->
  stops_polling (Run.status run) = false ->
  runs_to (handle_call rm) (check_run_body client run0) log
    (log ++ [ RunsRetrieve (Run.thread_id run0) (Run.id run0)
            ; Print (waiting_line run)
            ; Sleep 1 ])
    (Ok (inl run)).
Proof.
  intros Hret Hstop. unfold check_run_body, bindM, waiting_line.
  unfold stops_polling in Hstop.
  call_by ltac:(rewrite Hret; reflexivity).
  destruct (String.eqb (Run.status run) "completed"),
    (String.eqb (Run.status run) "expired"),
    (String.eqb (Run.status run) "failed"),
    (String.eqb (Run.status run) "requires_action");
    cbn in *; try discriminate.
  call_step. call_step. finish_run.
Qed.

Lemma check_run_body_raises (run0 : Run.t) (log : list call) (e : exception) :
  Remote.retrieve rm (occurrences is_retrieve log) = inl e ->
  runs_to (handle_call rm) (check_run_body client run0) log
    (log ++ [ RunsRetrieve (Run.thread_id run0) (Run.id run0) ])
    (Raise (Exc e)).
Proof.
  intros Hret. unfold check_run_body, bindM.
  call_by ltac:(rewrite Hret; reflexivity). finish_run.
Qed.

Lemma occurrences_retrieve_wait (run0 run : Run.t) (log : list call) :
  occurrences is_retrieve
    (log ++ [ RunsRetrieve (Run.thread_id run0) (Run.id run0)
            ; Print (waiting_line run)
            ; Sleep 1 ])
  = S (occurrences is_retrieve log).
Proof. rewrite occurrences_app. cbn. lia. Qed.

(** The poller against a service that answers [pending] and then [run]. *)
Lemma check_run_polls (pending : list Run.t) :
  forall (run0 run : Run.t) (log : list call),
    polls rm log pending run ->
    runs_to (handle_call rm) (check_run client run0) log
      (log ++ polling_calls run0 pending run) (Ok run).
Proof.
  induction pending as [|r rest IH]; intros run0 run log (Hup & Hwait & Hstop).
  - cbn in Hup. injection Hup as Hret.
    apply runs_to_while_break. cbn. apply check_run_body_stops; assumption.
  - cbn in Hup, Hwait. injection Hup as Hret Hup.
    apply andb_prop in Hwait as [Hr Hwait]. apply negb_true_iff in Hr.
    eapply runs_to_while_continue.
    + apply check_run_body_waits; eassumption.
    + eapply runs_to_eq; [apply (IH r run) | | reflexivity].
      * split; [| split; assumption].
        rewrite occurrences_retrieve_wait. exact Hup.
      * cbn. rewrite <- app_assoc. reflexivity.
Qed.

(** A polling never submits, lists, or asks for a completion. *)
Lemma polling_calls_kinds (pending : list Run.t) :
  forall (run0 run : Run.t),
    occurrences is_retrieve (polling_calls run0 pending run) = S (length pending)
    /\ List.filter is_sleep (polling_calls run0 pending run)
       = repeat (Sleep 1) (length pending)
    /\ occurrences is_submit (polling_calls run0 pending run) = 0
    /\ occurrences is_chat (polling_calls run0 pending run) = 0
    /\ occurrences is_messages_list (polling_calls run0 pending run) = 0.
Proof.
  induction pending as [|r rest IH]; intros run0 run.
  - cbn. repeat split; reflexivity.
  - destruct (IH r run) as (H1 & H2 & H3 & H4 & H5).
    cbn [polling_calls]. rewrite !occurrences_app, List.filter_app.
    rewrite H1, H2, H3, H4, H5. cbn. repeat split; reflexivity.
Qed.

End Poller.

(** * The expert caller and the driver (lines 28-44 and 90-137) *)

Section Driver.

Variable rm : Remote.t.
Variable json_loads : string -> result pyval.
Variable str_other : pyval -> string.
Variable client : Client.

Lemma handle_contact_expert_answers (name persona instructions : pyval)
  (log : list call) (content : option string) (others : list (option string)) :
  Remote.chat_completions rm (occurrences is_chat log)
  = inr (ChatCompletion.mk (content :: others)) ->
  runs_to (handle_call rm) (handle_contact_expert str_other client name persona instructions)
    log
    (log ++ [ ChatCompletionsCreate (expert_payload str_other name persona instructions) ])
    (Ok content).
Proof.
  intros Hchat. unfold handle_contact_expert.
  apply runs_to_try_except_ok. unfold bindM.
  call_by ltac:(rewrite Hchat; reflexivity). apply runs_to_ret.
Qed.

Lemma handle_contact_expert_no_choice (name persona instructions : pyval)
  (log : list call) :
  Remote.chat_completions rm (occurrences is_chat log)
  = inr (ChatCompletion.mk []) ->
  runs_to (handle_call rm) (handle_contact_expert str_other client name persona instructions)
    log
    (log ++ [ ChatCompletionsCreate (expert_payload str_other name persona instructions) ])
    (Raise (Exc (IndexError "list index out of range"))).
Proof.
  intros Hchat. unfold handle_contact_expert.
  apply runs_to_try_except_uncaught; [| reflexivity]. unfold bindM.
  call_by ltac:(rewrite Hchat; reflexivity). apply runs_to_ret.
Qed.

Lemma handle_contact_expert_fails (name persona instructions : pyval)
  (log : list call) (msg : string) :
  Remote.chat_completions rm (occurrences is_chat log)
  = inl (OpenAIError msg) ->
  runs_to (handle_call rm) (handle_contact_expert str_other client name persona instructions)
    log
    (log ++ [ ChatCompletionsCreate (expert_payload str_other name persona instructions)
            ; Print msg ])
    (Ok None).
Proof.
  intros Hchat. unfold handle_contact_expert.
  eapply runs_to_try_except_caught.
  - unfold bindM. call_by ltac:(rewrite Hchat; reflexivity). apply runs_to_ret.
  - reflexivity.
  - call_step. finish_run.
Qed.

Lemma handle_contact_expert_raises (name persona instructions : pyval)
  (log : list call) (e : exception) :
  Remote.chat_completions rm (occurrences is_chat log) = inl e ->
  (forall msg, e <> OpenAIError msg) ->
  runs_to (handle_call rm) (handle_contact_expert str_other client name persona instructions)
    log
    (log ++ [ ChatCompletionsCreate (expert_payload str_other name persona instructions) ])
    (Raise (Exc e)).
Proof.
  intros Hchat Hother. unfold handle_contact_expert.
  apply runs_to_try_except_uncaught.
  - unfold bindM. call_by ltac:(rewrite Hchat; reflexivity). apply runs_to_ret.
  - destruct e; try reflexivity. destruct (Hother msg). reflexivity.
Qed.

(** ** The tool outputs built for a [contact_expert] call *)

Section ContactExpert.

Variable tool_call : ToolCall.t.
Variable d : list (string * pyval).
Variables name instructions : pyval.

Hypothesis Hfun :
  FunctionCall.name (ToolCall.function tool_call) = "contact_expert".
Hypothesis Hargs :
  json_loads (FunctionCall.arguments (ToolCall.function tool_call)) = Ok (PDict d).
Hypothesis Hname : assoc "name" d = Some name.
Hypothesis Hinstructions : assoc "instructions" d = Some instructions.

(** Up to the call of the expert: the header is printed, then the expert
    caller runs and its outcome [r] decides the rest. *)
Lemma build_tool_outputs_calls_expert (log log2 : list call)
  (r : result (option string)) (k : result (list ToolOutput.t))
  (log3 : list call) :
  runs_to (handle_call rm)
    (handle_contact_expert str_other client name (persona_of d) instructions)
    (log ++ [ Print (expert_header str_other name (persona_of d) instructions) ])
    log2 r ->
  runs_to (handle_call rm)
    (match r with
     | Ok (Some text) =>
         if truthy_str (Some text) then
           ITree.bind (do (Print (expert_reply_line str_other name text)))
             (fun _ => pure (Ok [ ToolOutput.mk (ToolCall.id tool_call)
                                    (join (nl +:+ nl) [text; continuation_prompt]) ]))
         else pure (Ok [])
     | Ok None => pure (Ok [])
     | Raise e => Ret (Raise e)
     end) log2 log3 k ->
  runs_to (handle_call rm)
    (build_tool_outputs json_loads str_other client tool_call) log log3 k.
Proof.
  intros Hexpert Hrest. unfold build_tool_outputs, bindM, pure.
  rewrite Hfun, String.eqb_refl, Hargs.
  apply runs_to_bind_ret. cbv beta iota.
  rewrite (getitem_found _ _ _ Hname).
  apply runs_to_bind_ret. cbv beta iota.
  rewrite get_persona.
  apply runs_to_bind_ret. cbv beta iota.
  rewrite (getitem_found _ _ _ Hinstructions).
  apply runs_to_bind_ret. cbv beta iota.
  call_step.
  eapply runs_to_bind; [exact Hexpert |].
  destruct r as [[text|]|e]; exact Hrest.
Qed.

Lemma build_tool_outputs_replied (log : list call) (reply : string)
  (others : list (option string)) :
  Remote.chat_completions rm (occurrences is_chat log)
  = inr (ChatCompletion.mk (Some reply :: others)) ->
  reply <> "" ->
  runs_to (handle_call rm)
    (build_tool_outputs json_loads str_other client tool_call) log
    (log ++ [ Print (expert_header str_other name (persona_of d) instructions)
            ; ChatCompletionsCreate
                (expert_payload str_other name (persona_of d) instructions)
            ; Print (expert_reply_line str_other name reply) ])
    (Ok [ reply_output tool_call reply ]).
Proof.
  intros Hchat Hreply.
  eapply (build_tool_outputs_calls_expert log _ (Ok (Some reply))).
  - apply handle_contact_expert_answers with (others := others).
    rewrite occurrences_app, Nat.add_0_r. exact Hchat.
  - cbn. apply String.eqb_neq in Hreply. rewrite Hreply. cbn.
    call_step. apply runs_to_ret_eq; [| reflexivity].
    rewrite <- !app_assoc. reflexivity.
Qed.

Lemma build_tool_outputs_silent (log : list call) (content : option string)
  (others : list (option string)) :
  Remote.chat_completions rm (occurrences is_chat log)
  = inr (ChatCompletion.mk (content :: others)) ->
  truthy_str content = false ->
  runs_to (handle_call rm)
    (build_tool_outputs json_loads str_other client tool_call) log
    (log ++ [ Print (expert_header str_other name (persona_of d) instructions)
            ; ChatCompletionsCreate
                (expert_payload str_other name (persona_of d) instructions) ])
    (Ok []).
Proof.
  intros Hchat Hfalsy.
  eapply (build_tool_outputs_calls_expert log _ (Ok content)).
  - apply handle_contact_expert_answers with (others := others).
    rewrite occurrences_app, Nat.add_0_r. exact Hchat.
  - destruct content as [text|]; [rewrite Hfalsy |];
      (apply runs_to_ret_eq; [rewrite <- !app_assoc |]; reflexivity).
Qed.

Lemma build_tool_outputs_failed (log : list call) (msg : string) :
  Remote.chat_completions rm (occurrences is_chat log) = inl (OpenAIError msg) ->
  runs_to (handle_call rm)
    (build_tool_outputs json_loads str_other client tool_call) log
    (log ++ [ Print (expert_header str_other name (persona_of d) instructions)
            ; ChatCompletionsCreate
                (expert_payload str_other name (persona_of d) instructions)
            ; Print msg ])
    (Ok []).
Proof.
  intros Hchat.
  eapply build_tool_outputs_calls_expert.
  - apply handle_contact_expert_fails.
    rewrite occurrences_app, Nat.add_0_r. exact Hchat.
  - apply runs_to_ret_eq; [rewrite <- !app_assoc |]; reflexivity.
Qed.

End ContactExpert.

(** ** One round of the driver's loop *)

Lemma print_messages_lines (data : list Message.t) :
  forall (log lines : list call),
    printed_lines data = Some lines ->
    runs_to (handle_call rm) (print_messages data) log (log ++ lines) (Ok tt).
Proof.
  induction data as [|message rest IH]; intros log lines Hlines; cbn in Hlines.
  - injection Hlines as <-. cbn. apply runs_to_ret_eq; [symmetry; apply app_nil_r | reflexivity].
  - unfold first_text in Hlines. cbn [print_messages].
    destruct (Message.content message) as [|[text|file] blocks]; try discriminate.
    destruct (printed_lines rest) as [rest_lines|] eqn:Hrest; [| discriminate].
    injection Hlines as <-.
    call_step. eapply runs_to_eq; [apply (IH _ rest_lines eq_refl) | | reflexivity].
    rewrite <- app_assoc. reflexivity.
Qed.

Section Round.

Variables run0 run : Run.t.
Variable last_id : option string.
Variable log : list call.
Variable pending : list Run.t.

Hypothesis Hpolls : polls rm log pending run.

Lemma round_without_output (tool_call : ToolCall.t) (rest : list ToolCall.t)
  (log2 : list call) :
  Run.status run = "requires_action" ->
  Run.required_action run = Some (tool_call :: rest) ->
  runs_to (handle_call rm)
    (build_tool_outputs json_loads str_other client tool_call)
    (log ++ polling_calls run0 pending run) log2 (Ok []) ->
  runs_to (handle_call rm)
    (run_assistant_body json_loads str_other client (run0, last_id))
    log log2 (Ok (inl (run, last_id))).
Proof.
  intros Hstatus Haction Hbuild. unfold run_assistant_body.
  eapply runs_to_bindM_ok; [apply check_run_polls; exact Hpolls |].
  rewrite Hstatus, String.eqb_refl, Haction.
  eapply runs_to_bindM_ok; [exact Hbuild |]. apply runs_to_ret.
Qed.

Lemma round_with_output (tool_call : ToolCall.t) (rest : list ToolCall.t)
  (log2 : list call) (o : ToolOutput.t) (outs : list ToolOutput.t) :
  Run.status run = "requires_action" ->
  Run.required_action run = Some (tool_call :: rest) ->
  runs_to (handle_call rm)
    (build_tool_outputs json_loads str_other client tool_call)
    (log ++ polling_calls run0 pending run) log2 (Ok (o :: outs)) ->
  runs_to (handle_call rm)
    (run_assistant_body json_loads str_other client (run0, last_id))
    log
    (log2 ++ [ RunsSubmitToolOutputs (Run.thread_id run) (Run.id run) (o :: outs) ])
    (match Remote.submit_tool_outputs rm (occurrences is_submit log2) with
     | inr run' => Ok (inl (run', last_id))
     | inl e => Raise (Exc e)
     end).
Proof.
  intros Hstatus Haction Hbuild. unfold run_assistant_body.
  eapply runs_to_bindM_ok; [apply check_run_polls; exact Hpolls |].
  rewrite Hstatus, String.eqb_refl, Haction.
  eapply runs_to_bindM_ok; [exact Hbuild |]. cbv beta iota. unfold bindM.
  call_step.
  destruct (Remote.submit_tool_outputs rm (occurrences is_submit log2));
    apply runs_to_ret.
Qed.

Lemma occurrences_after_polling (p : call -> bool) :
  p = is_submit \/ p = is_chat \/ p = is_messages_list ->
  occurrences p (log ++ polling_calls run0 pending run) = occurrences p log.
Proof.
  intros Hp. rewrite occurrences_app.
  destruct (polling_calls_kinds pending run0 run) as (_ & _ & H1 & H2 & H3).
  destruct Hp as [-> | [-> | ->]]; lia.
Qed.

Lemma round_empty_listing :
  String.eqb (Run.status run) "requires_action" = false ->
  Remote.messages_list rm (occurrences is_messages_list log) = inr [] ->
  runs_to (handle_call rm)
    (run_assistant_body json_loads str_other client (run0, last_id))
    log
    (log ++ polling_calls run0 pending run
         ++ [ MessagesList (Run.thread_id run) (after_cursor last_id) ])
    (Raise (Exc (IndexError "list index out of range"))).
Proof.
  intros Hstatus Hlist. unfold run_assistant_body.
  eapply runs_to_bindM_ok; [apply check_run_polls; exact Hpolls |].
  rewrite Hstatus. unfold bindM.
  call_by ltac:(rewrite occurrences_after_polling by auto; rewrite Hlist;
                reflexivity).
  apply runs_to_ret_eq; [rewrite <- app_assoc |]; reflexivity.
Qed.

Lemma round_listing (data : list Message.t) (last_message : Message.t)
  (lines : list call) :
  String.eqb (Run.status run) "requires_action" = false ->
  Remote.messages_list rm (occurrences is_messages_list log) = inr data ->
  last data = Some last_message ->
  printed_lines data = Some lines ->
  runs_to (handle_call rm)
    (run_assistant_body json_loads str_other client (run0, last_id))
    log
    (log ++ polling_calls run0 pending run
         ++ [ MessagesList (Run.thread_id run) (after_cursor last_id) ]
         ++ lines)
    (if String.eqb (Run.status run) "completed" then Ok (inr tt)
     else Ok (inl (run, Some (Message.id last_message)))).
Proof.
  intros Hstatus Hlist Hlast Hlines. unfold run_assistant_body.
  eapply runs_to_bindM_ok; [apply check_run_polls; exact Hpolls |].
  rewrite Hstatus. unfold bindM at 1.
  call_by ltac:(rewrite occurrences_after_polling by auto; rewrite Hlist;
                reflexivity).
  rewrite Hlast.
  eapply runs_to_bindM_ok; [apply print_messages_lines; exact Hlines |].
  destruct (String.eqb (Run.status run) "completed");
    (apply runs_to_ret_eq; [rewrite <- !app_assoc |]; reflexivity).
Qed.

End Round.

(** A round that polls a failed or an expired run and finds messages to
    print does not leave the loop: it goes round again with the same run. *)
Lemma failed_or_expired_round_goes_round_again (run0 run : Run.t)
  (last_id : option string) (log : list call) (pending : list Run.t)
  (data : list Message.t) (last_message : Message.t) (lines : list call) :
  polls rm log pending run ->
  Run.status run = "failed" \/ Run.status run = "expired" ->
  Remote.messages_list rm (occurrences is_messages_list log) = inr data ->
  last data = Some last_message ->
  printed_lines data = Some lines ->
  runs_to (handle_call rm)
    (run_assistant_body json_loads str_other client (run0, last_id))
    log
    (log ++ polling_calls run0 pending run
         ++ [ MessagesList (Run.thread_id run) (after_cursor last_id) ]
         ++ lines)
    (Ok (inl (run, Some (Message.id last_message)))).
Proof.
  intros Hpolls Hstatus Hlist Hlast Hlines.
  eapply runs_to_eq; [| reflexivity |].
  - eapply round_listing; try eassumption.
    destruct Hstatus as [-> | ->]; reflexivity.
  - destruct Hstatus as [-> | ->]; reflexivity.
Qed.

(** ** The whole loop and the entry point *)

Lemma rounds_then (st st' : Run.t * option string) (log log' log'' : list call)
  (r : result unit) :
  rounds rm json_loads str_other client st log st' log' ->
  runs_to (handle_call rm)
    (while_true (run_assistant_body json_loads str_other client) st') log' log'' r ->
  runs_to (handle_call rm)
    (while_true (run_assistant_body json_loads str_other client) st) log log'' r.
Proof.
  intros Hrounds. induction Hrounds as [|st log st1 log1 st2 log2 Hround _ IH];
    intros Hrest; [exact Hrest |].
  eapply runs_to_while_continue; [exact Hround | apply IH, Hrest].
Qed.

Lemma handle_user_input_reads (log : list call) :
  runs_to (handle_call rm) handle_user_input log
    (log ++ [ Print (Fore.CYAN +:+ " User Command:")
            ; Print Style.RESET_ALL
            ; Input ])
    (to_result (Remote.stdin rm (occurrences is_input log))).
Proof.
  unfold handle_user_input. call_step. call_step.
  eapply runs_to_eq; [apply (runs_to_do rm Input) | | ].
  - rewrite <- !app_assoc. reflexivity.
  - cbn. rewrite !occurrences_app. cbn. rewrite !Nat.add_0_r. reflexivity.
Qed.

Lemma main_quits (log : list call) :
  Remote.client_init rm = inr tt ->
  Remote.stdin rm (occurrences is_input log) = inr "quit" ->
  runs_to (handle_call rm) (main json_loads str_other) log
    (log ++ prelude_calls) (Raise (SystemExit 0)).
Proof.
  intros Hclient Hline. unfold main, bindM at 1.
  call_by ltac:(rewrite Hclient; reflexivity).
  eapply runs_to_bindM_ok.
  - eapply runs_to_eq; [apply handle_user_input_reads | reflexivity |].
    rewrite occurrences_app. cbn. rewrite Nat.add_0_r, Hline. reflexivity.
  - cbn. apply runs_to_ret_eq; [rewrite <- app_assoc |]; reflexivity.
Qed.

Lemma main_drives (log log' : list call) (line : string) (run0 : Run.t)
  (r : result unit) :
  Remote.client_init rm = inr tt ->
  Remote.stdin rm (occurrences is_input log) = inr line ->
  line <> "quit" ->
  Remote.create_and_run rm (occurrences is_create_and_run log) = inr run0 ->
  runs_to (handle_call rm) (run_assistant json_loads str_other client run0)
    (log ++ prelude_calls ++ [ create_call line ]) log' r ->
  runs_to (handle_call rm) (main json_loads str_other) log
    (match r with
     | Raise (Exc e) => log' ++ [ Print (str_exception e) ]
     | _ => log'
     end)
    (match r with
     | Raise (Exc e) => Raise (SystemExit 1)
     | _ => r
     end).
Proof.
  intros Hclient Hline Hquit Hcreate Hrun. unfold main, bindM at 1.
  call_by ltac:(rewrite Hclient; reflexivity).
  eapply runs_to_bindM_ok.
  - eapply runs_to_eq; [apply handle_user_input_reads | reflexivity |].
    rewrite occurrences_app. cbn. rewrite Nat.add_0_r, Hline. reflexivity.
  - apply String.eqb_neq in Hquit. rewrite Hquit.
    assert (Hbody :
      runs_to (handle_call rm)
        (bindM (do (create_call line))
           (fun run => run_assistant json_loads str_other client run))
        ((log ++ [OpenAI_new])
           ++ [ Print (Fore.CYAN +:+ " User Command:")
              ; Print Style.RESET_ALL
              ; Input ]) log' r).
    { unfold bindM.
      call_by ltac:(rewrite !occurrences_app; cbn; rewrite !Nat.add_0_r, Hcreate;
                    reflexivity).
      destruct client. rewrite <- !app_assoc. exact Hrun. }
    destruct r as [[]|[e|c]].
    + apply runs_to_try_except_ok. rewrite <- !app_assoc in *. exact Hbody.
    + eapply runs_to_try_except_caught; [exact Hbody | reflexivity |].
      call_step. apply runs_to_ret.
    + apply runs_to_try_except_uncaught; [exact Hbody | reflexivity].
Qed.

End Driver.

(** * The properties *)

(** C3: against any sequence of run snapshots whose first status among
    completed, expired, failed and requires_action is that of [run],
    whatever the statuses of the snapshots [pending] that come before it,
    [check_run] returns [run]: it asks for the status once per snapshot, no
    more, and follows each snapshot of [pending] by one sleep of one
    second. *)
Theorem check_run_returns_at_first_stopping_status
  (rm : Remote.t) (client : Client) (run0 run : Run.t) (log : list call)
  (pending : list Run.t) :
  polls rm log pending run ->
  runs_to (handle_call rm) (check_run client run0) log
    (log ++ polling_calls run0 pending run) (Ok run)
  /\ occurrences is_retrieve (polling_calls run0 pending run) = S (length pending)
  /\ List.filter is_sleep (polling_calls run0 pending run)
     = repeat (Sleep 1) (length pending).
Proof.
  intros Hpolls. split; [apply check_run_polls; exact Hpolls |].
  destruct (polling_calls_kinds pending run0 run) as (H1 & H2 & _).
  split; assumption.
Qed.

Lemma check_run_returns_at_first_stopping_status_witness :
  polls Demo.happy [] [Demo.queued_run; Demo.in_progress_run] Demo.completed_run
  /\ runs_to (handle_call Demo.happy) (check_run tt Demo.queued_run) []
       [ RunsRetrieve "thread_1" "run_1"
       ; Print (waiting_line Demo.queued_run)
       ; Sleep 1
       ; RunsRetrieve "thread_1" "run_1"
       ; Print (waiting_line Demo.in_progress_run)
       ; Sleep 1
       ; RunsRetrieve "thread_1" "run_1"
       ; Print (stopping_line Demo.completed_run) ]
       (Ok Demo.completed_run).
Proof.
  assert (Hpolls : polls Demo.happy []
                     [Demo.queued_run; Demo.in_progress_run] Demo.completed_run).
  { repeat split; reflexivity. }
  split; [exact Hpolls |].
  exact (proj1 (check_run_returns_at_first_stopping_status
                  Demo.happy tt Demo.queued_run Demo.completed_run []
                  [Demo.queued_run; Demo.in_progress_run] Hpolls)).
Defined.

(** C2: in a round where the polled run requires action, its first tool
    call is a [contact_expert] call and the expert's reply is a non-empty
    string [reply], the driver submits exactly one tool output, for that
    tool call, whose text is [reply], then two line feeds, then the
    continuation prompt. *)
Theorem expert_reply_is_submitted_with_the_prompt
  (rm : Remote.t) (json_loads : string -> result pyval)
  (str_other : pyval -> string) (client : Client)
  (run0 run : Run.t) (last_id : option string) (log : list call)
  (pending : list Run.t) (tool_call : ToolCall.t) (rest : list ToolCall.t)
  (d : list (string * pyval)) (name instructions : pyval)
  (reply : string) (others : list (option string)) :
  polls rm log pending run ->
  Run.status run = "requires_action" ->
  Run.required_action run = Some (tool_call :: rest) ->
  FunctionCall.name (ToolCall.function tool_call) = "contact_expert" ->
  json_loads (FunctionCall.arguments (ToolCall.function tool_call)) = Ok (PDict d) ->
  assoc "name" d = Some name ->
  assoc "instructions" d = Some instructions ->
  Remote.chat_completions rm (occurrences is_chat log)
  = inr (ChatCompletion.mk (Some reply :: others)) ->
  reply <> "" ->
  runs_to (handle_call rm)
    (run_assistant_body json_loads str_other client (run0, last_id)) log
    (log ++ polling_calls run0 pending run
         ++ [ Print (expert_header str_other name (persona_of d) instructions)
            ; ChatCompletionsCreate
                (expert_payload str_other name (persona_of d) instructions)
            ; Print (expert_reply_line str_other name reply)
            ; RunsSubmitToolOutputs (Run.thread_id run) (Run.id run)
                [ ToolOutput.mk (ToolCall.id tool_call)
                    (reply +:+ nl +:+ nl +:+ continuation_prompt) ] ])
    (match Remote.submit_tool_outputs rm (occurrences is_submit log) with
     | inr run' => Ok (inl (run', last_id))
     | inl e => Raise (Exc e)
     end).
Proof.
  intros Hpolls Hstatus Haction Hfun Hargs Hname Hinstr Hchat Hreply.
  eapply runs_to_eq.
  - eapply (round_with_output rm json_loads str_other client run0 run last_id
              log pending Hpolls tool_call rest); [exact Hstatus | exact Haction |].
    eapply (build_tool_outputs_replied rm json_loads str_other client tool_call
              d name instructions Hfun Hargs Hname Hinstr _ reply others);
      [| exact Hreply].
    rewrite occurrences_after_polling by auto. exact Hchat.
  - rewrite <- !app_assoc. reflexivity.
  - rewrite occurrences_app, occurrences_after_polling by auto.
    cbn. rewrite Nat.add_0_r. reflexivity.
Qed.

Lemma expert_reply_is_submitted_with_the_prompt_witness :
  runs_to
    (handle_call
       (Demo.asking (inr (ChatCompletion.mk [ Some "Try the risotto." ]))))
    (run_assistant_body Demo.loads Demo.str_other tt (Demo.queued_run, None)) []
    ([] ++ polling_calls Demo.queued_run [] Demo.action_run
        ++ [ Print (expert_header Demo.str_other (PStr "Expert Chef") PNone
                      (PStr "Suggest a menu"))
           ; ChatCompletionsCreate
               (expert_payload Demo.str_other (PStr "Expert Chef") PNone
                  (PStr "Suggest a menu"))
           ; Print (expert_reply_line Demo.str_other (PStr "Expert Chef")
                      "Try the risotto.")
           ; RunsSubmitToolOutputs "thread_1" "run_1"
               [ ToolOutput.mk "call_1"
                   ("Try the risotto." +:+ nl +:+ nl +:+ continuation_prompt) ] ])
    (Ok (inl (Demo.in_progress_run, None))).
Proof.
  apply (expert_reply_is_submitted_with_the_prompt
           (Demo.asking (inr (ChatCompletion.mk [ Some "Try the risotto." ])))
           Demo.loads Demo.str_other tt Demo.queued_run Demo.action_run None []
           [] Demo.chef_call [] Demo.chef_dict (PStr "Expert Chef")
           (PStr "Suggest a menu") "Try the risotto." []).
  - repeat split; reflexivity.
  - reflexivity.
  - reflexivity.
  - reflexivity.
  - reflexivity.
  - reflexivity.
  - reflexivity.
  - reflexivity.
  - discriminate.
Defined.

(** C4: in a round where the polled run requires action and the expert
    caller comes back with nothing because its completion request failed,
    the driver makes no call that submits tool outputs, and goes back to
    polling with the run and the cursor it had. *)
Theorem failed_expert_call_submits_nothing
  (rm : Remote.t) (json_loads : string -> result pyval)
  (str_other : pyval -> string) (client : Client)
  (run0 run : Run.t) (last_id : option string) (log : list call)
  (pending : list Run.t) (tool_call : ToolCall.t) (rest : list ToolCall.t)
  (d : list (string * pyval)) (name instructions : pyval) (msg : string) :
  polls rm log pending run ->
  Run.status run = "requires_action" ->
  Run.required_action run = Some (tool_call :: rest) ->
  FunctionCall.name (ToolCall.function tool_call) = "contact_expert" ->
  json_loads (FunctionCall.arguments (ToolCall.function tool_call)) = Ok (PDict d) ->
  assoc "name" d = Some name ->
  assoc "instructions" d = Some instructions ->
  Remote.chat_completions rm (occurrences is_chat log) = inl (OpenAIError msg) ->
  exists log' : list call,
    runs_to (handle_call rm)
      (run_assistant_body json_loads str_other client (run0, last_id)) log
      log' (Ok (inl (run, last_id)))
    /\ log' = log ++ polling_calls run0 pending run
                  ++ [ Print (expert_header str_other name (persona_of d) instructions)
                     ; ChatCompletionsCreate
                         (expert_payload str_other name (persona_of d) instructions)
                     ; Print msg ]
    /\ occurrences is_submit log' = occurrences is_submit log.
Proof.
  intros Hpolls Hstatus Haction Hfun Hargs Hname Hinstr Hchat.
  eexists. split; [| split; [reflexivity |]].
  - eapply runs_to_eq; [| | reflexivity].
    + eapply (round_without_output rm json_loads str_other client run0 run
                last_id log pending Hpolls tool_call rest);
        [exact Hstatus | exact Haction |].
      eapply (build_tool_outputs_failed rm json_loads str_other client tool_call
                d name instructions Hfun Hargs Hname Hinstr _ msg).
      rewrite occurrences_after_polling by auto. exact Hchat.
    + rewrite <- !app_assoc. reflexivity.
  - rewrite app_assoc, occurrences_app, occurrences_after_polling by auto.
    cbn. apply Nat.add_0_r.
Qed.

Lemma failed_expert_call_submits_nothing_witness :
  exists log' : list call,
    runs_to (handle_call (Demo.asking Demo.no_chat))
      (run_assistant_body Demo.loads Demo.str_other tt (Demo.queued_run, None)) []
      log' (Ok (inl (Demo.action_run, None)))
    /\ log' = [] ++ polling_calls Demo.queued_run [] Demo.action_run
                 ++ [ Print (expert_header Demo.str_other (PStr "Expert Chef")
                               (persona_of Demo.chef_dict) (PStr "Suggest a menu"))
                    ; ChatCompletionsCreate
                        (expert_payload Demo.str_other (PStr "Expert Chef")
                           (persona_of Demo.chef_dict) (PStr "Suggest a menu"))
                    ; Print "Connection error." ]
    /\ occurrences is_submit log' = occurrences is_submit [].
Proof.
  apply (failed_expert_call_submits_nothing (Demo.asking Demo.no_chat)
           Demo.loads Demo.str_other tt Demo.queued_run Demo.action_run None []
           [] Demo.chef_call [] Demo.chef_dict (PStr "Expert Chef")
           (PStr "Suggest a menu") "Connection error.").
  - repeat split; reflexivity.
  - reflexivity.
  - reflexivity.
  - reflexivity.
  - reflexivity.
  - reflexivity.
  - reflexivity.
  - reflexivity.
Defined.

(** C8: in a round where the polled run requires action and the
    completion request succeeds with the empty string as its text, the
    driver does what it does when the expert gives no text at all
    ([content] is [Some ""] or [None], the two values that are not true):
    after the header and the completion request it prints no reply, builds
    no tool output, submits nothing, and goes back to polling with the run
    and the cursor it had. *)
Theorem empty_reply_is_treated_as_no_reply
  (rm : Remote.t) (json_loads : string -> result pyval)
  (str_other : pyval -> string) (client : Client)
  (run0 run : Run.t) (last_id : option string) (log : list call)
  (pending : list Run.t) (tool_call : ToolCall.t) (rest : list ToolCall.t)
  (d : list (string * pyval)) (name instructions : pyval)
  (content : option string) (others : list (option string)) :
  polls rm log pending run ->
  Run.status run = "requires_action" ->
  Run.required_action run = Some (tool_call :: rest) ->
  FunctionCall.name (ToolCall.function tool_call) = "contact_expert" ->
  json_loads (FunctionCall.arguments (ToolCall.function tool_call)) = Ok (PDict d) ->
  assoc "name" d = Some name ->
  assoc "instructions" d = Some instructions ->
  Remote.chat_completions rm (occurrences is_chat log)
  = inr (ChatCompletion.mk (content :: others)) ->
  content = Some "" \/ content = None ->
  exists log' : list call,
    runs_to (handle_call rm)
      (build_tool_outputs json_loads str_other client tool_call)
      (log ++ polling_calls run0 pending run) log' (Ok [])
    /\ runs_to (handle_call rm)
         (run_assistant_body json_loads str_other client (run0, last_id)) log
         log' (Ok (inl (run, last_id)))
    /\ log' = log ++ polling_calls run0 pending run
                  ++ [ Print (expert_header str_other name (persona_of d) instructions)
                     ; ChatCompletionsCreate
                         (expert_payload str_other name (persona_of d) instructions) ]
    /\ occurrences is_submit log' = occurrences is_submit log.
Proof.
  intros Hpolls Hstatus Haction Hfun Hargs Hname Hinstr Hchat Hcontent.
  assert (Hfalsy : truthy_str content = false)
    by (destruct Hcontent as [-> | ->]; reflexivity).
  assert (Hbuild :
    runs_to (handle_call rm)
      (build_tool_outputs json_loads str_other client tool_call)
      (log ++ polling_calls run0 pending run)
      (log ++ polling_calls run0 pending run
           ++ [ Print (expert_header str_other name (persona_of d) instructions)
              ; ChatCompletionsCreate
                  (expert_payload str_other name (persona_of d) instructions) ])
      (Ok [])).
  { eapply runs_to_eq; [| | reflexivity].
    - eapply (build_tool_outputs_silent rm json_loads str_other client tool_call
                d name instructions Hfun Hargs Hname Hinstr _ content others);
        [| exact Hfalsy].
      rewrite occurrences_after_polling by auto. exact Hchat.
    - rewrite <- !app_assoc. reflexivity. }
  eexists. split; [exact Hbuild |]. split; [| split; [reflexivity |]].
  - eapply (round_without_output rm json_loads str_other client run0 run
              last_id log pending Hpolls tool_call rest);
      [exact Hstatus | exact Haction | exact Hbuild].
  - rewrite app_assoc, occurrences_app, occurrences_after_polling by auto.
    cbn. apply Nat.add_0_r.
Qed.

Lemma empty_reply_is_treated_as_no_reply_witness :
  exists log' : list call,
    runs_to (handle_call (Demo.asking (inr (ChatCompletion.mk [ Some "" ]))))
      (build_tool_outputs Demo.loads Demo.str_other tt Demo.chef_call)
      ([] ++ polling_calls Demo.queued_run [] Demo.action_run) log' (Ok [])
    /\ runs_to (handle_call (Demo.asking (inr (ChatCompletion.mk [ Some "" ]))))
         (run_assistant_body Demo.loads Demo.str_other tt (Demo.queued_run, None))
         [] log' (Ok (inl (Demo.action_run, None)))
    /\ log' = [] ++ polling_calls Demo.queued_run [] Demo.action_run
                 ++ [ Print (expert_header Demo.str_other (PStr "Expert Chef")
                               (persona_of Demo.chef_dict) (PStr "Suggest a menu"))
                    ; ChatCompletionsCreate
                        (expert_payload Demo.str_other (PStr "Expert Chef")
                           (persona_of Demo.chef_dict) (PStr "Suggest a menu")) ]
    /\ occurrences is_submit log' = occurrences is_submit [].
Proof.
  apply (empty_reply_is_treated_as_no_reply
           (Demo.asking (inr (ChatCompletion.mk [ Some "" ])))
           Demo.loads Demo.str_other tt Demo.queued_run Demo.action_run None []
           [] Demo.chef_call [] Demo.chef_dict (PStr "Expert Chef")
           (PStr "Suggest a menu") (Some "") []).
  - repeat split; reflexivity.
  - reflexivity.
  - reflexivity.
  - reflexivity.
  - reflexivity.
  - reflexivity.
  - reflexivity.
  - reflexivity.
  - left. reflexivity.
Defined.

(** C10: when the arguments of a [contact_expert] call have no [persona]
    field, the completion request is sent all the same, and its system
    message reads [You are an <name>. None]: the missing persona is
    rendered as the text [None]. *)
Theorem missing_persona_is_sent_as_None
  (rm : Remote.t) (json_loads : string -> result pyval)
  (str_other : pyval -> string) (client : Client) (log : list call)
  (tool_call : ToolCall.t) (d : list (string * pyval))
  (name instructions : pyval) :
  FunctionCall.name (ToolCall.function tool_call) = "contact_expert" ->
  json_loads (FunctionCall.arguments (ToolCall.function tool_call)) = Ok (PDict d) ->
  assoc "name" d = Some name ->
  assoc "persona" d = None ->
  assoc "instructions" d = Some instructions ->
  exists (tail : list call) (r : result (list ToolOutput.t)),
    runs_to (handle_call rm)
      (build_tool_outputs json_loads str_other client tool_call) log
      (log ++ [ Print (expert_header str_other name PNone instructions)
              ; ChatCompletionsCreate
                  (Payload.mk "gpt-4-turbo-preview"
                     [ ChatMessage.mk "system"
                         (PStr ("You are an " +:+ str str_other name +:+ ". None"))
                     ; ChatMessage.mk "user" instructions ]
                     (QArith_base.Qmake 2 10)) ]
           ++ tail)
      r.
Proof.
  intros Hfun Hargs Hname Hpersona Hinstr.
  assert (Hp : persona_of d = PNone) by (unfold persona_of; rewrite Hpersona; reflexivity).
  pose proof (build_tool_outputs_calls_expert rm json_loads str_other client
                tool_call d name instructions Hfun Hargs Hname Hinstr log) as Hbuild.
  rewrite Hp in Hbuild.
  destruct (Remote.chat_completions rm
              (occurrences is_chat
                 (log ++ [ Print (expert_header str_other name PNone instructions) ])))
    as [e | [[| content others]]] eqn:Hchat.
  - assert (Hcase : (exists msg, e = OpenAIError msg)
                      \/ (forall msg, e <> OpenAIError msg))
      by (destruct e; first [left; eexists; reflexivity | right; discriminate]).
    destruct Hcase as [[msg ->] | Hother].
    2: { exists [], (Raise (Exc e)). eapply Hbuild.
         - apply handle_contact_expert_raises; [exact Hchat | exact Hother].
         - apply runs_to_ret_eq; [rewrite <- !app_assoc |]; reflexivity. }
    exists [ Print msg ], (Ok []). eapply Hbuild.
    + apply handle_contact_expert_fails. exact Hchat.
    + apply runs_to_ret_eq; [rewrite <- !app_assoc |]; reflexivity.
  - exists [], (Raise (Exc (IndexError "list index out of range"))). eapply Hbuild.
    + apply handle_contact_expert_no_choice. exact Hchat.
    + apply runs_to_ret_eq; [rewrite <- !app_assoc |]; reflexivity.
  - destruct content as [text|].
    + destruct (String.eqb text "") eqn:Htext.
      * exists [], (Ok []). eapply Hbuild.
        -- apply handle_contact_expert_answers with (others := others). exact Hchat.
        -- cbn. rewrite Htext. cbn.
           apply runs_to_ret_eq; [rewrite <- !app_assoc |]; reflexivity.
      * exists [ Print (expert_reply_line str_other name text) ],
          (Ok [ reply_output tool_call text ]). eapply Hbuild.
        -- apply handle_contact_expert_answers with (others := others). exact Hchat.
        -- cbn. rewrite Htext. cbn. call_step.
           apply runs_to_ret_eq; [rewrite <- !app_assoc |]; reflexivity.
    + exists [], (Ok []). eapply Hbuild.
      * apply handle_contact_expert_answers with (others := others). exact Hchat.
      * apply runs_to_ret_eq; [rewrite <- !app_assoc |]; reflexivity.
Qed.

Lemma missing_persona_is_sent_as_None_witness :
  exists (tail : list call) (r : result (list ToolOutput.t)),
    runs_to (handle_call (Demo.asking Demo.no_chat))
      (build_tool_outputs Demo.loads Demo.str_other tt Demo.chef_call) []
      ([] ++ [ Print (expert_header Demo.str_other (PStr "Expert Chef") PNone
                        (PStr "Suggest a menu"))
             ; ChatCompletionsCreate
                 (Payload.mk "gpt-4-turbo-preview"
                    [ ChatMessage.mk "system"
                        (PStr ("You are an "
                               +:+ str Demo.str_other (PStr "Expert Chef")
                               +:+ ". None"))
                    ; ChatMessage.mk "user" (PStr "Suggest a menu") ]
                    (QArith_base.Qmake 2 10)) ]
          ++ tail)
      r.
Proof.
  apply (missing_persona_is_sent_as_None (Demo.asking Demo.no_chat)
           Demo.loads Demo.str_other tt [] Demo.chef_call Demo.chef_dict
           (PStr "Expert Chef") (PStr "Suggest a menu")).
  - reflexivity.
  - reflexivity.
  - reflexivity.
  - reflexivity.
  - reflexivity.
Defined.

(** C7: when the line read from standard input is [quit], [main] ends by
    [sys.exit(0)], so the process exits with code 0; it has built the
    client, printed the prompt and read the line, and none of its calls goes
    to the service: no thread or run is created and no completion is
    requested. *)
Theorem quit_exits_with_code_0_without_remote_calls
  (rm : Remote.t) (json_loads : string -> result pyval)
  (str_other : pyval -> string) (log : list call) :
  Remote.client_init rm = inr tt ->
  Remote.stdin rm (occurrences is_input log) = inr "quit" ->
  runs_to (handle_call rm) (main json_loads str_other) log
    (log ++ prelude_calls) (Raise (SystemExit 0))
  /\ exit_code (Raise (SystemExit 0)) = 0%Z
  /\ occurrences is_remote prelude_calls = 0.
Proof.
  intros Hclient Hline. split; [| split; reflexivity].
  apply main_quits; assumption.
Qed.

Lemma quit_exits_with_code_0_without_remote_calls_witness :
  runs_to (handle_call Demo.quitting) (main Demo.loads Demo.str_other) []
    ([] ++ prelude_calls) (Raise (SystemExit 0))
  /\ exit_code (Raise (SystemExit 0)) = 0%Z
  /\ occurrences is_remote prelude_calls = 0.
Proof.
  apply (quit_exits_with_code_0_without_remote_calls Demo.quitting
           Demo.loads Demo.str_other []).
  - reflexivity.
  - reflexivity.
Defined.

(** C9: whenever, after any number of rounds, the driver polls a run whose
    status is not requires_action and the message listing it then asks for
    comes back empty, reading the last message's id raises an
    [IndexError]: [run_assistant] ends with that exception instead of going
    round again, and [main] catches it, prints its text and ends by
    [sys.exit(1)], so the process exits with code 1. *)
Theorem empty_message_list_ends_with_exit_code_1
  (rm : Remote.t) (json_loads : string -> result pyval)
  (str_other : pyval -> string) (log log1 : list call) (line : string)
  (run0 run : Run.t) (st : Run.t * option string) (pending : list Run.t) :
  Remote.client_init rm = inr tt ->
  Remote.stdin rm (occurrences is_input log) = inr line ->
  line <> "quit" ->
  Remote.create_and_run rm (occurrences is_create_and_run log) = inr run0 ->
  rounds rm json_loads str_other tt (run0, None)
    (log ++ prelude_calls ++ [ create_call line ]) st log1 ->
  polls rm log1 pending run ->
  String.eqb (Run.status run) "requires_action" = false ->
  Remote.messages_list rm (occurrences is_messages_list log1) = inr [] ->
  runs_to (handle_call rm) (run_assistant json_loads str_other tt run0)
    (log ++ prelude_calls ++ [ create_call line ])
    (log1 ++ polling_calls (fst st) pending run
          ++ [ MessagesList (Run.thread_id run) (after_cursor (snd st)) ])
    (Raise (Exc (IndexError "list index out of range")))
  /\ runs_to (handle_call rm) (main json_loads str_other) log
       ((log1 ++ polling_calls (fst st) pending run
              ++ [ MessagesList (Run.thread_id run) (after_cursor (snd st)) ])
        ++ [ Print "list index out of range" ])
       (Raise (SystemExit 1))
  /\ exit_code (Raise (SystemExit 1)) = 1%Z.
Proof.
  intros Hclient Hline Hquit Hcreate Hrounds Hpolls Hstatus Hlist.
  assert (Hrun :
    runs_to (handle_call rm) (run_assistant json_loads str_other tt run0)
      (log ++ prelude_calls ++ [ create_call line ])
      (log1 ++ polling_calls (fst st) pending run
            ++ [ MessagesList (Run.thread_id run) (after_cursor (snd st)) ])
      (Raise (Exc (IndexError "list index out of range")))).
  { unfold run_assistant. eapply rounds_then; [exact Hrounds |].
    apply runs_to_while_raise. destruct st as [run1 last_id].
    apply round_empty_listing; assumption. }
  split; [exact Hrun |]. split; [| reflexivity].
  exact (main_drives rm json_loads str_other tt log _ line run0 _
           Hclient Hline Hquit Hcreate Hrun).
Qed.

Lemma empty_message_list_ends_with_exit_code_1_witness :
  runs_to (handle_call Demo.failing) (main Demo.loads Demo.str_other) []
    (([] ++ prelude_calls ++ [ create_call "Plan a trip" ]
         ++ polling_calls Demo.queued_run [] Demo.failed_run
         ++ [ MessagesList "thread_1" None
            ; Print (assistant_line "Plan a trip") ])
     ++ polling_calls Demo.failed_run [] Demo.failed_run
     ++ [ MessagesList "thread_1" (Some "msg_1")
        ; Print "list index out of range" ])
    (Raise (SystemExit 1)).
Proof.
  pose proof
    (empty_message_list_ends_with_exit_code_1 Demo.failing Demo.loads
       Demo.str_other []
       ([] ++ prelude_calls ++ [ create_call "Plan a trip" ]
           ++ polling_calls Demo.queued_run [] Demo.failed_run
           ++ [ MessagesList "thread_1" None
              ; Print (assistant_line "Plan a trip") ])
       "Plan a trip" Demo.queued_run Demo.failed_run
       (Demo.failed_run, Some "msg_1") []) as H.
  cbn [fst snd] in H.
  eapply runs_to_eq; [apply H | | reflexivity].
  - reflexivity.
  - reflexivity.
  - discriminate.
  - reflexivity.
  - eapply rounds_more; [| apply rounds_none].
    apply (exec_sound _ 40). vm_compute. reflexivity.
  - repeat split; reflexivity.
  - reflexivity.
  - reflexivity.
  - reflexivity.
Defined.

(** C1 does not hold of the code.  Here the run is polled as failed and the
    thread holds the user's message only.  The status is printed, but the
    loop is not left: the driver lists the messages, polls the failed run a
    second time and lists the messages after the one it has seen; that
    listing is empty, the [IndexError] reaches [main], and the process exits
    with code 1. *)
Theorem failed_run_is_polled_again_and_exits_with_code_1 :
  runs_to (handle_call Demo.failing) (main Demo.loads Demo.str_other) []
    (prelude_calls
     ++ [ create_call "Plan a trip"
        ; RunsRetrieve "thread_1" "run_1"
        ; Print (Fore.RED +:+ "Run is failed." +:+ Style.RESET_ALL)
        ; MessagesList "thread_1" None
        ; Print (assistant_line "Plan a trip")
        ; RunsRetrieve "thread_1" "run_1"
        ; Print (Fore.RED +:+ "Run is failed." +:+ Style.RESET_ALL)
        ; MessagesList "thread_1" (Some "msg_1")
        ; Print "list index out of range" ])
    (Raise (SystemExit 1))
  /\ exit_code (Raise (SystemExit 1)) = 1%Z.
Proof.
  split; [| reflexivity].
  apply (exec_sound _ 100). vm_compute. reflexivity.
Qed.

(** The happy path: queued, in progress, completed; the messages are
    printed, nothing is submitted, and [main] returns. *)
Example happy_path :
  runs_to (handle_call Demo.happy) (main Demo.loads Demo.str_other) []
    (prelude_calls
     ++ [ create_call "Plan a trip" ]
     ++ polling_calls Demo.queued_run
          [Demo.queued_run; Demo.in_progress_run] Demo.completed_run
     ++ [ MessagesList "thread_1" None
        ; Print (assistant_line "Plan a trip") ])
    (Ok tt).
Proof. apply (exec_sound _ 100). vm_compute. reflexivity. Qed.

(** * The script runner (lines 47-65) *)

Lemma runs_to_sys (os : OS.t) (c : syscall) (fs : files) (log : list syscall) :
  runs_to (handle_sys os) (sys c) (fs, log)
    (fst (sys_respond os fs c), log ++ [c]) (snd (sys_respond os fs c)).
Proof.
  apply runs_to_trigger. cbn. destruct (sys_respond os fs c). reflexivity.
Qed.

Lemma runs_to_sys_bind (os : OS.t) {B : Type} (c : syscall)
  (k : sysresp c -> itree sysE B) (fs fs1 : files) (log : list syscall)
  (st' : files * list syscall) (x : sysresp c) (b : B) :
  sys_respond os fs c = (fs1, x) ->
  runs_to (handle_sys os) (k x) (fs1, log ++ [c]) st' b ->
  runs_to (handle_sys os) (ITree.bind (sys c) k) (fs, log) st' b.
Proof.
  intros Hc Hk. eapply runs_to_bind; [apply runs_to_sys |].
  rewrite Hc. exact Hk.
Qed.

Ltac sys_by tac :=
  lazymatch goal with
  | |- runs_to _ (ITree.bind (sys ?c) ?k) _ _ _ =>
      eapply (runs_to_sys_bind _ c k);
        [cbv beta iota delta [sys_respond]; tac | cbv beta iota]
  end.

(** The script does not reach the disk: the function raises before the
    child process is started, and the file stays. *)
Lemma execute_python_code_local_disk_fails (os : OS.t) (s name : string)
  (fs : files) (log : list syscall) :
  OS.tmp_name os fs ".py" = inr name ->
  fs !! name = None ->
  OS.write_fails os <> None \/ OS.flush_fails os <> None ->
  exists (fs' : files) (log' : list syscall) (e : exn),
    runs_to (handle_sys os) (execute_python_code_local s) (fs, log)
      (fs', log') (Raise e).
Proof.
  intros Hname Hfresh Hfails.
  unfold execute_python_code_local, bindM at 1.
  destruct (OS.write_fails os) as [e|] eqn:Hwrite.
  - exists (<[name := ""]> fs), (log ++ [ NamedTemporaryFile ".py" false
                                        ; FileWrite name s
                                        ; FileClose name ]), (Exc e).
    sys_by ltac:(rewrite Hname, Hfresh; reflexivity).
    eapply runs_to_eq.
    + eapply runs_to_try_finally.
      * unfold bindM at 1.
        sys_by ltac:(rewrite Hwrite; reflexivity). apply runs_to_ret.
      * eapply runs_to_bind;
          [apply (runs_to_sys os (FileClose name)) | apply runs_to_ret].
    + cbn. rewrite <- !app_assoc. reflexivity.
    + reflexivity.
  - destruct (OS.flush_fails os) as [e|] eqn:Hflush;
      [| destruct Hfails as [H | H]; destruct H; reflexivity].
    exists (<[name := s]> fs), (log ++ [ NamedTemporaryFile ".py" false
                                       ; FileWrite name s
                                       ; FileFlush name
                                       ; FileClose name ]), (Exc e).
    sys_by ltac:(rewrite Hname, Hfresh; reflexivity).
    eapply runs_to_eq.
    + eapply runs_to_try_finally.
      * unfold bindM at 1.
        sys_by ltac:(unfold files in *;
                     rewrite Hwrite, lookup_insert_eq, insert_insert_eq;
                     reflexivity).
        unfold bindM at 1.
        sys_by ltac:(rewrite Hflush; reflexivity). apply runs_to_ret.
      * eapply runs_to_bind;
          [apply (runs_to_sys os (FileClose name)) | apply runs_to_ret].
    + cbn. rewrite <- !app_assoc. reflexivity.
    + reflexivity.
Qed.

Section Runner.

Variable os : OS.t.
Variables (s name : string) (fs fs2 : files) (log : list syscall).
Variable outcome : answer CompletedProcess.t.

Hypothesis Hname : OS.tmp_name os fs ".py" = inr name.
Hypothesis Hfresh : fs !! name = None.
Hypothesis Hwrite : OS.write_fails os = None.
Hypothesis Hflush : OS.flush_fails os = None.
Hypothesis Hchild :
  OS.child os ["python"; name] (with_script name s fs) = (fs2, outcome).

(** Lines 54-62: the child process is run and its output picked. *)
Lemma run_and_capture (log1 : list syscall) :
  runs_to (handle_sys os)
    (try_except
       (bindM (sys (SubprocessRun ["python"; name] true true true))
          (fun result => pure (Ok (CompletedProcess.stdout result))))
       (fun e =>
          match e with
          | Exc (CalledProcessError _ stderr _) => Some (pure (Ok stderr))
          | _ => None
          end))
    (with_script name s fs, log1)
    (fs2, log1 ++ [ SubprocessRun ["python"; name] true true true ])
    (captured outcome).
Proof.
  unfold captured. destruct outcome as [e | cp] eqn:Hout.
  - assert (Hbody :
      runs_to (handle_sys os)
        (bindM (sys (SubprocessRun ["python"; name] true true true))
           (fun result => pure (Ok (CompletedProcess.stdout result))))
        (with_script name s fs, log1)
        (fs2, log1 ++ [ SubprocessRun ["python"; name] true true true ])
        (Raise (Exc e))).
    { unfold bindM. sys_by ltac:(rewrite Hchild; reflexivity). apply runs_to_ret. }
    destruct e;
      first [ eapply runs_to_try_except_caught;
                [exact Hbody | reflexivity | apply runs_to_ret]
            | apply runs_to_try_except_uncaught; [exact Hbody | reflexivity] ].
  - destruct (CompletedProcess.returncode cp =? 0)%Z eqn:Hcode.
    + apply runs_to_try_except_ok. unfold bindM.
      sys_by ltac:(rewrite Hchild, Hcode; reflexivity). apply runs_to_ret.
    + eapply runs_to_try_except_caught.
      * unfold bindM.
        sys_by ltac:(rewrite Hchild, Hcode; reflexivity). apply runs_to_ret.
      * reflexivity.
      * apply runs_to_ret.
Qed.

(** The whole function, once the script has reached the disk. *)
Lemma execute_python_code_local_runs :
  runs_to (handle_sys os) (execute_python_code_local s) (fs, log)
    (delete name fs2, log ++ script_calls name s)
    (match fs2 !! name with
     | Some _ => captured outcome
     | None =>
         Raise (Exc (OSError
           ("[Errno 2] No such file or directory: '" +:+ name +:+ "'")))
     end).
Proof.
  unfold execute_python_code_local, bindM at 1.
  sys_by ltac:(rewrite Hname, Hfresh; reflexivity).
  eapply runs_to_eq.
  - eapply runs_to_try_finally.
    + unfold bindM at 1.
      sys_by ltac:(unfold files in *;
                   rewrite Hwrite, lookup_insert_eq, insert_insert_eq; reflexivity).
      unfold bindM at 1.
      sys_by ltac:(rewrite Hflush; reflexivity).
      eapply runs_to_try_finally;
        [apply run_and_capture | apply (runs_to_sys os (OsRemove name))].
    + eapply runs_to_bind;
        [apply (runs_to_sys os (FileClose name)) | apply runs_to_ret].
  - cbn. destruct (fs2 !! name) eqn:Hthere; cbn.
    + rewrite <- !app_assoc. reflexivity.
    + unfold files in *. rewrite delete_id by exact Hthere.
      rewrite <- !app_assoc. reflexivity.
  - cbn. destruct (fs2 !! name); reflexivity.
Qed.

End Runner.

(** Where the removal does take place: for every script text, the
    temporary file [name] that [execute_python_code_local] creates no
    longer exists whenever the function returns a value; and once the
    script has been written to the file, so that the child process is
    started, the file no longer exists when the function is over, whatever
    the child process did and however it ended (exit status zero, exit
    status other than zero, or not started at all), the function itself
    touching no other file. *)
Theorem temporary_file_is_removed_once_the_child_is_started
  (os : OS.t) (s name : string) (fs : files) (log : list syscall) :
  OS.tmp_name os fs ".py" = inr name ->
  fs !! name = None ->
  exists (fs' : files) (log' : list syscall) (r : result string),
    runs_to (handle_sys os) (execute_python_code_local s) (fs, log)
      (fs', log') r
    /\ ((exists out, r = Ok out) -> fs' !! name = None)
    /\ (OS.write_fails os = None -> OS.flush_fails os = None ->
        log' = log ++ script_calls name s
        /\ with_script name s fs !! name = Some s
        /\ fs' !! name = None
        /\ (forall path, path <> name ->
            fs' !! path
            = fst (OS.child os ["python"; name] (with_script name s fs)) !! path)).
Proof.
  intros Hname Hfresh.
  destruct (OS.write_fails os) as [ew|] eqn:Hwrite.
  { destruct (execute_python_code_local_disk_fails os s name fs log Hname Hfresh)
      as (fs' & log' & e & Hrun); [left; rewrite Hwrite; discriminate |].
    exists fs', log', (Raise e). split; [exact Hrun |].
    split; [intros [out Hout]; discriminate | intros Hw; discriminate]. }
  destruct (OS.flush_fails os) as [ef|] eqn:Hflush.
  { destruct (execute_python_code_local_disk_fails os s name fs log Hname Hfresh)
      as (fs' & log' & e & Hrun); [right; rewrite Hflush; discriminate |].
    exists fs', log', (Raise e). split; [exact Hrun |].
    split; [intros [out Hout]; discriminate | intros _ Hf; discriminate]. }
  destruct (OS.child os ["python"; name] (with_script name s fs))
    as [fs2 outcome] eqn:Hchild.
  eexists. eexists. eexists. split; [| split].
  - exact (execute_python_code_local_runs os s name fs fs2 log outcome
             Hname Hfresh Hwrite Hflush Hchild).
  - intros _. unfold files. apply lookup_delete_eq.
  - intros _ _. split; [reflexivity |]. unfold with_script, files in *.
    split; [apply lookup_insert_eq |]. split; [apply lookup_delete_eq |].
    intros path Hpath. apply lookup_delete_ne. congruence.
Qed.

Lemma temporary_file_is_removed_once_the_child_is_started_witness :
  exists (fs' : files) (log' : list syscall) (r : result string),
    runs_to (handle_sys DemoOS.raising)
      (execute_python_code_local "raise ValueError('x')") (∅, [])
      (fs', log') r
    /\ ((exists out, r = Ok out) -> fs' !! DemoOS.tmp = None)
    /\ (OS.write_fails DemoOS.raising = None ->
        OS.flush_fails DemoOS.raising = None ->
        log' = [] ++ script_calls DemoOS.tmp "raise ValueError('x')"
        /\ with_script DemoOS.tmp "raise ValueError('x')" ∅ !! DemoOS.tmp
           = Some "raise ValueError('x')"
        /\ fs' !! DemoOS.tmp = None
        /\ (forall path, path <> DemoOS.tmp ->
            fs' !! path
            = fst (OS.child DemoOS.raising ["python"; DemoOS.tmp]
                     (with_script DemoOS.tmp "raise ValueError('x')" ∅))
              !! path)).
Proof.
  apply (temporary_file_is_removed_once_the_child_is_started DemoOS.raising
           "raise ValueError('x')" DemoOS.tmp ∅ []).
  - reflexivity.
  - reflexivity.
Defined.

(** C5 does not hold of the code.  Here the disk is full when the buffer
    is flushed (line 52).  The temporary file has been created and holds
    the script; the flush raises before the [try] block is entered, so the
    [finally] block that removes the file is not run: no child process is
    started, the file is closed, the exception goes to the caller, and the
    file is still on the disk when the function is over. *)
Theorem full_disk_leaves_the_temporary_file :
  runs_to (handle_sys full_disk) (execute_python_code_local "print('ok')")
    (∅, [])
    (with_script DemoOS.tmp "print('ok')" ∅,
     [ NamedTemporaryFile ".py" false
     ; FileWrite DemoOS.tmp "print('ok')"
     ; FileFlush DemoOS.tmp
     ; FileClose DemoOS.tmp ])
    (Raise (Exc (OSError "[Errno 28] No space left on device")))
  /\ with_script DemoOS.tmp "print('ok')" ∅ !! DemoOS.tmp = Some "print('ok')".
Proof.
  split; [| reflexivity].
  apply (exec_sound _ 40). vm_compute. reflexivity.
Qed.




(** * What a tree ensures when it stops *)

Section Ensures.

Context {E : Type -> Type} {S : Type}.
Variable h : E ~> Monads.stateT S (itree void1).

Lemma leaf_stops {R : Type} (t : itree void1 R) (x : R) : Leaf x t -> t ≈ Ret x.
Proof.
  induction 1 as [t Hobs | t u Hobs _ IH | X e t k x' Hobs _ _].
  - rewrite (itree_eta t), Hobs. reflexivity.
  - rewrite (itree_eta t), Hobs, tau_eutt. exact IH.
  - destruct e.
Qed.

Lemma stops_leaf {R : Type} (t : itree void1 R) (x : R) : t ≈ Ret x -> Leaf x t.
Proof. intros Ht. rewrite Ht. apply Leaf_Ret. Qed.

Lemma ensures_runs {R : Type} (t : itree E R) (s s1 : S) (r1 : R)
  (Q : S -> R -> Prop) :
  runs_to h t s s1 r1 -> Q s1 r1 -> ensures h t s Q.
Proof.
  intros Hrun HQ s' r Hrun'.
  destruct (runs_to_det h t s s1 s' r1 r Hrun Hrun') as [<- <-]. exact HQ.
Qed.

Lemma ensures_weaken {R : Type} (t : itree E R) (s : S) (P Q : S -> R -> Prop) :
  ensures h t s P -> (forall s' r, P s' r -> Q s' r) -> ensures h t s Q.
Proof. intros HP HPQ s' r Hrun. apply HPQ, HP, Hrun. Qed.

Lemma ensures_bind {A B : Type} (t : itree E A) (k : A -> itree E B) (s : S)
  (P : S -> A -> Prop) (Q : S -> B -> Prop) :
  ensures h t s P ->
  (forall s1 a, P s1 a -> ensures h (k a) s1 Q) ->
  ensures h (ITree.bind t k) s Q.
Proof.
  intros Ht Hk s' b Hrun. apply stops_leaf in Hrun.
  rewrite interp_state_bind in Hrun.
  apply Leaf_bind_inv in Hrun as ([s1 a] & Hleaf_t & Hleaf_k).
  apply leaf_stops in Hleaf_t, Hleaf_k.
  exact (Hk s1 a (Ht s1 a Hleaf_t) s' b Hleaf_k).
Qed.

(** The loop rule: [RS] holds of the states and [RI] of the loop states
    all along, and [RR] of the result when the loop is left. *)
Lemma ensures_iter {I R : Type} (step : I -> itree E (I + R))
  (RS : S -> Prop) (RI : I -> Prop) (RR : R -> Prop) (s : S) (i : I) :
  (forall s i, RS s -> RI i ->
     ensures h (step i) s
       (fun s' x => RS s' /\ match x with inl i' => RI i' | inr r => RR r end)) ->
  RS s -> RI i ->
  ensures h (ITree.iter step i) s (fun s' r => RS s' /\ RR r).
Proof.
  intros Hstep Hs Hi s' r Hrun. apply stops_leaf in Hrun.
  apply (Leaf_interp_state_iter_inv h step RS RI RR s i) in Hrun; auto.
  intros s0 i0 Hs0 Hi0 [s1 x] Hleaf. apply leaf_stops in Hleaf.
  destruct (Hstep s0 i0 Hs0 Hi0 s1 x Hleaf) as [H1 H2].
  split; [exact H1 | destruct x; exact H2].
Qed.

Lemma ensures_while_true {I R : Type} (body : I -> itree E (result (I + R)))
  (RS : S -> Prop) (RI : I -> Prop) (RR : result R -> Prop) (s : S) (i : I) :
  (forall s i, RS s -> RI i ->
     ensures h (body i) s
       (fun s' x => RS s' /\ match x with
                             | Ok (inl i') => RI i'
                             | Ok (inr v) => RR (Ok v)
                             | Raise e => RR (Raise e)
                             end)) ->
  RS s -> RI i ->
  ensures h (while_true body i) s (fun s' r => RS s' /\ RR r).
Proof.
  intros Hbody Hs Hi.
  apply (ensures_iter (loop_step body) RS RI RR); [| exact Hs | exact Hi].
  intros s0 i0 Hs0 Hi0. unfold loop_step.
  eapply ensures_bind; [apply (Hbody s0 i0 Hs0 Hi0) |].
  intros s1 x [H1 H2].
  destruct x as [[i'|v]|e];
    (eapply ensures_runs; [apply runs_to_ret | split; [exact H1 | exact H2]]).
Qed.

End Ensures.

(** * More on the poller (lines 68-87) *)

(** X1: when a status query raises, after any number of snapshots that do
    not stop the polling, [check_run] raises that exception at once: the
    failed query is not tried again, and nothing is printed for it. *)
Theorem check_run_raises_what_the_query_raises
  (rm : Remote.t) (client : Client) (pending : list Run.t) :
  forall (run0 : Run.t) (log : list call) (e : exception),
    upcoming (Remote.retrieve rm) (occurrences is_retrieve log) (S (length pending))
    = map inr pending ++ [ inl e ] ->
    forallb (fun r => negb (stops_polling (Run.status r))) pending = true ->
    runs_to (handle_call rm) (check_run client run0) log
      (log ++ waiting_calls run0 pending
           ++ [ RunsRetrieve (Run.thread_id (latest run0 pending))
                  (Run.id (latest run0 pending)) ])
      (Raise (Exc e)).
Proof.
  induction pending as [|r rest IH]; intros run0 log e Hup Hwait.
  - cbn in Hup. injection Hup as Hret.
    apply runs_to_while_raise. cbn. apply check_run_body_raises. exact Hret.
  - cbn in Hup, Hwait. injection Hup as Hret Hup.
    apply andb_prop in Hwait as [Hr Hwait]. apply negb_true_iff in Hr.
    eapply runs_to_while_continue.
    + apply check_run_body_waits; eassumption.
    + eapply runs_to_eq; [apply (IH r _ e) | | reflexivity].
      * rewrite occurrences_retrieve_wait. exact Hup.
      * exact Hwait.
      * cbn. rewrite <- app_assoc. reflexivity.
Qed.

Lemma check_run_raises_what_the_query_raises_witness :
  runs_to (handle_call dropping) (check_run tt Demo.queued_run) []
    ([] ++ waiting_calls Demo.queued_run [ Demo.queued_run ]
        ++ [ RunsRetrieve "thread_1" "run_1" ])
    (Raise (Exc (OpenAIError "Connection error."))).
Proof.
  apply (check_run_raises_what_the_query_raises dropping tt
           [ Demo.queued_run ] Demo.queued_run []
           (OpenAIError "Connection error.")).
  - reflexivity.
  - reflexivity.
Defined.

Lemma polling_tail_extends (log tail more : list call) :
  forallb is_polling_call tail = true ->
  forallb is_polling_call more = true ->
  exists tail' : list call,
    (log ++ tail) ++ more = log ++ tail'
    /\ forallb is_polling_call tail' = true.
Proof.
  intros Htail Hmore. exists (tail ++ more). split.
  - symmetry. apply app_assoc.
  - rewrite forallb_app, Htail, Hmore. reflexivity.
Qed.

(** X2: against any service, when [check_run] is over it has made no call
    other than status queries, prints and sleeps of one second; the
    snapshot it returns is at one of the four statuses that stop the
    polling, and what it raises is an [Exception]. *)
Theorem check_run_only_polls_and_returns_a_stopping_snapshot
  (rm : Remote.t) (client : Client) (run0 : Run.t) (log log' : list call)
  (r : result Run.t) :
  runs_to (handle_call rm) (check_run client run0) log log' r ->
  (exists tail : list call,
     log' = log ++ tail /\ forallb is_polling_call tail = true)
  /\ match r with
     | Ok run => stops_polling (Run.status run) = true
     | Raise e => exists ex : exception, e = Exc ex
     end.
Proof.
  revert log' r.
  apply (ensures_while_true (handle_call rm) (check_run_body client)
           (fun l => exists tail, l = log ++ tail
                                  /\ forallb is_polling_call tail = true)
           (fun _ => True)
           (fun r => match r with
                     | Ok run => stops_polling (Run.status run) = true
                     | Raise e => exists ex : exception, e = Exc ex
                     end)).
  - intros l i (tail & -> & Htail) _.
    destruct (Remote.retrieve rm (occurrences is_retrieve (log ++ tail)))
      as [e | run] eqn:Hret.
    + eapply ensures_runs; [apply check_run_body_raises; exact Hret |].
      split; [apply polling_tail_extends; [exact Htail | reflexivity] |].
      exists e. reflexivity.
    + destruct (stops_polling (Run.status run)) eqn:Hstop.
      * eapply ensures_runs; [apply check_run_body_stops; eassumption |].
        split; [apply polling_tail_extends; [exact Htail | reflexivity] |].
        exact Hstop.
      * eapply ensures_runs; [apply check_run_body_waits; eassumption |].
        split; [apply polling_tail_extends; [exact Htail | reflexivity] |].
        exact I.
  - exists []. split; [symmetry; apply app_nil_r | reflexivity].
  - exact I.
Qed.

Lemma check_run_only_polls_and_returns_a_stopping_snapshot_witness :
  (exists tail : list call,
     polling_calls Demo.queued_run [Demo.queued_run; Demo.in_progress_run]
       Demo.completed_run
     = [] ++ tail /\ forallb is_polling_call tail = true)
  /\ stops_polling (Run.status Demo.completed_run) = true.
Proof.
  apply (check_run_only_polls_and_returns_a_stopping_snapshot Demo.happy tt
           Demo.queued_run [] _ (Ok Demo.completed_run)).
  apply (exec_sound _ 40). vm_compute. reflexivity.
Defined.

(** X3: against a service whose every status query answers with a
    snapshot at a status other than completed, expired, failed and
    requires_action (a run that stays queued, or one that was cancelled),
    [check_run] never returns and never raises: it polls for ever. *)
Theorem check_run_polls_for_ever_on_other_statuses
  (rm : Remote.t) (client : Client) (run0 : Run.t) (log : list call) :
  (forall n, exists run,
      Remote.retrieve rm n = inr run
      /\ stops_polling (Run.status run) = false) ->
  never_returns (handle_call rm) (check_run client run0) log.
Proof.
  intros Hstuck log' r Hrun.
  assert (Hpost :
    ensures (handle_call rm) (check_run client run0) log
      (fun _ _ => True /\ False)).
  { apply (ensures_while_true (handle_call rm) (check_run_body client)
             (fun _ => True) (fun _ => True) (fun _ => False));
      [| exact I | exact I].
    intros l i _ _.
    destruct (Hstuck (occurrences is_retrieve l)) as (run & Hret & Hstop).
    eapply ensures_runs; [apply check_run_body_waits; eassumption |].
    split; exact I. }
  destruct (Hpost log' r Hrun) as [_ []].
Qed.

Lemma check_run_polls_for_ever_on_other_statuses_witness :
  never_returns (handle_call (stuck_at "cancelled"))
    (check_run tt Demo.queued_run) [].
Proof.
  apply (check_run_polls_for_ever_on_other_statuses (stuck_at "cancelled") tt
           Demo.queued_run []).
  intros n. exists (Run.mk "thread_1" "run_1" "cancelled" None).
  split; reflexivity.
Defined.

(** * More on the expert caller and the driver (lines 28-44 and 90-137) *)

(** X4: the expert caller always ends, after exactly one completion
    request and no other call to the service; it never lets an
    [OpenAIError] out (that one is printed, and nothing is returned), while
    any other exception of the request, and the [IndexError] of a
    completion without choices, go on to the caller. *)
Theorem handle_contact_expert_asks_once_and_keeps_OpenAIError_in
  (rm : Remote.t) (str_other : pyval -> string) (client : Client)
  (name persona instructions : pyval) (log : list call) :
  exists (tail : list call) (r : result (option string)),
    runs_to (handle_call rm)
      (handle_contact_expert str_other client name persona instructions) log
      (log ++ ChatCompletionsCreate
                (expert_payload str_other name persona instructions) :: tail)
      r
    /\ occurrences is_remote tail = 0
    /\ (forall msg, r <> Raise (Exc (OpenAIError msg)))
    /\ match Remote.chat_completions rm (occurrences is_chat log) with
       | inl (OpenAIError msg) => tail = [ Print msg ] /\ r = Ok None
       | inl e => tail = [] /\ r = Raise (Exc e)
       | inr completion =>
           tail = []
           /\ r = match ChatCompletion.choices completion with
                  | content :: _ => Ok content
                  | [] => Raise (Exc (IndexError "list index out of range"))
                  end
       end.
Proof.
  destruct (Remote.chat_completions rm (occurrences is_chat log))
    as [e | [[| content others]]] eqn:Hchat.
  - assert (Hcase : (exists msg, e = OpenAIError msg)
                    \/ (forall msg, e <> OpenAIError msg))
      by (destruct e; first [left; eexists; reflexivity | right; discriminate]).
    destruct Hcase as [[msg ->] | Hother].
    + exists [ Print msg ], (Ok None).
      split; [apply handle_contact_expert_fails; exact Hchat |].
      repeat split; [discriminate].
    + exists [], (Raise (Exc e)).
      split; [apply handle_contact_expert_raises; assumption |].
      split; [reflexivity |]. split.
      * intros msg [= He]. exact (Hother msg He).
      * destruct e; try (split; reflexivity). destruct (Hother msg eq_refl).
  - exists [], (Raise (Exc (IndexError "list index out of range"))).
    split; [apply handle_contact_expert_no_choice; exact Hchat |].
    repeat split; discriminate.
  - exists [], (Ok content).
    split; [apply handle_contact_expert_answers with (others := others);
            exact Hchat |].
    repeat split; discriminate.
Qed.

Section MoreRounds.

Variable rm : Remote.t.
Variable json_loads : string -> result pyval.
Variable str_other : pyval -> string.
Variable client : Client.

Lemma build_tool_outputs_other_function (tool_call : ToolCall.t) (log : list call) :
  String.eqb (FunctionCall.name (ToolCall.function tool_call)) "contact_expert"
  = false ->
  runs_to (handle_call rm)
    (build_tool_outputs json_loads str_other client tool_call) log log (Ok []).
Proof.
  intros Hfun. unfold build_tool_outputs. rewrite Hfun. apply runs_to_ret.
Qed.

Lemma build_tool_outputs_bad_json (tool_call : ToolCall.t) (log : list call)
  (e : exn) :
  FunctionCall.name (ToolCall.function tool_call) = "contact_expert" ->
  json_loads (FunctionCall.arguments (ToolCall.function tool_call)) = Raise e ->
  runs_to (handle_call rm)
    (build_tool_outputs json_loads str_other client tool_call) log log (Raise e).
Proof.
  intros Hfun Hargs. unfold build_tool_outputs.
  rewrite Hfun, String.eqb_refl, Hargs.
  apply runs_to_bindM_raise. apply runs_to_ret.
Qed.

Lemma build_tool_outputs_missing_key (tool_call : ToolCall.t) (log : list call)
  (d : list (string * pyval)) (key : string) :
  FunctionCall.name (ToolCall.function tool_call) = "contact_expert" ->
  json_loads (FunctionCall.arguments (ToolCall.function tool_call)) = Ok (PDict d) ->
  (assoc "name" d = None /\ key = "name")
  \/ (assoc "name" d <> None /\ assoc "instructions" d = None
      /\ key = "instructions") ->
  runs_to (handle_call rm)
    (build_tool_outputs json_loads str_other client tool_call) log log
    (Raise (Exc (KeyError key))).
Proof.
  intros Hfun Hargs Hkey. unfold build_tool_outputs, bindM, pure.
  rewrite Hfun, String.eqb_refl, Hargs.
  apply runs_to_bind_ret. cbv beta iota.
  destruct Hkey as [[Hname ->] | (Hname & Hinstr & ->)].
  - cbn [getitem]. rewrite Hname. apply runs_to_bind_ret. apply runs_to_ret.
  - destruct (assoc "name" d) as [name|] eqn:Hn; [| destruct Hname; reflexivity].
    rewrite (getitem_found _ _ _ Hn).
    apply runs_to_bind_ret. cbv beta iota.
    rewrite get_persona.
    apply runs_to_bind_ret. cbv beta iota.
    cbn [getitem]. rewrite Hinstr. apply runs_to_bind_ret. apply runs_to_ret.
Qed.

Lemma round_build_raises (run0 run : Run.t) (last_id : option string)
  (log : list call) (pending : list Run.t) (tool_call : ToolCall.t)
  (rest : list ToolCall.t) (log2 : list call) (e : exn) :
  polls rm log pending run ->
  Run.status run = "requires_action" ->
  Run.required_action run = Some (tool_call :: rest) ->
  runs_to (handle_call rm)
    (build_tool_outputs json_loads str_other client tool_call)
    (log ++ polling_calls run0 pending run) log2 (Raise e) ->
  runs_to (handle_call rm)
    (run_assistant_body json_loads str_other client (run0, last_id))
    log log2 (Raise e).
Proof.
  intros Hpolls Hstatus Haction Hbuild. unfold run_assistant_body.
  eapply runs_to_bindM_ok; [apply check_run_polls; exact Hpolls |].
  rewrite Hstatus, String.eqb_refl, Haction.
  apply runs_to_bindM_raise. exact Hbuild.
Qed.

Lemma print_messages_stops (texts : list Message.t) :
  forall (log lines : list call) (bad : Message.t) (rest : list Message.t),
    printed_lines texts = Some lines ->
    first_text bad = None ->
    runs_to (handle_call rm) (print_messages (texts ++ bad :: rest)) log
      (log ++ lines)
      (Raise (Exc (match Message.content bad with
                   | [] => IndexError "list index out of range"
                   | _ :: _ => KeyError "text"
                   end))).
Proof.
  induction texts as [|message more IH]; intros log lines bad rest Hlines Hbad;
    cbn in Hlines.
  - injection Hlines as <-. cbn. unfold first_text in Hbad.
    destruct (Message.content bad) as [|[text|file] blocks]; try discriminate;
      (apply runs_to_ret_eq; [symmetry; apply app_nil_r | reflexivity]).
  - unfold first_text in Hlines. cbn [app print_messages].
    destruct (Message.content message) as [|[text|file] blocks]; try discriminate.
    destruct (printed_lines more) as [more_lines|] eqn:Hmore; [| discriminate].
    injection Hlines as <-.
    call_step.
    eapply runs_to_eq; [apply (IH _ more_lines bad rest eq_refl Hbad) | | reflexivity].
    rewrite <- app_assoc. reflexivity.
Qed.

End MoreRounds.

(** * More on the rounds of the driver (lines 94-137) *)

(** X5: in a round where the polled run requires action and its first
    tool call names a function other than [contact_expert], the driver
    asks no expert and submits nothing: it makes no call beyond the
    polling, and goes back to polling with the run and the cursor it
    had. *)
Theorem other_tool_calls_are_left_unanswered
  (rm : Remote.t) (json_loads : string -> result pyval)
  (str_other : pyval -> string) (client : Client)
  (run0 run : Run.t) (last_id : option string) (log : list call)
  (pending : list Run.t) (tool_call : ToolCall.t) (rest : list ToolCall.t) :
  polls rm log pending run ->
  Run.status run = "requires_action" ->
  Run.required_action run = Some (tool_call :: rest) ->
  FunctionCall.name (ToolCall.function tool_call) <> "contact_expert" ->
  runs_to (handle_call rm)
    (run_assistant_body json_loads str_other client (run0, last_id)) log
    (log ++ polling_calls run0 pending run) (Ok (inl (run, last_id)))
  /\ occurrences is_chat (log ++ polling_calls run0 pending run)
     = occurrences is_chat log
  /\ occurrences is_submit (log ++ polling_calls run0 pending run)
     = occurrences is_submit log.
Proof.
  intros Hpolls Hstatus Haction Hfun. apply String.eqb_neq in Hfun.
  split; [| split; apply occurrences_after_polling; auto].
  eapply (round_without_output rm json_loads str_other client run0 run last_id
            log pending Hpolls tool_call rest); [exact Hstatus | exact Haction |].
  apply build_tool_outputs_other_function. exact Hfun.
Qed.

Lemma other_tool_calls_are_left_unanswered_witness :
  runs_to (handle_call (always weather_run Demo.no_chat (inr [])))
    (run_assistant_body Demo.loads Demo.str_other tt (Demo.queued_run, None)) []
    ([] ++ polling_calls Demo.queued_run [] weather_run)
    (Ok (inl (weather_run, None)))
  /\ occurrences is_chat ([] ++ polling_calls Demo.queued_run [] weather_run)
     = occurrences is_chat []
  /\ occurrences is_submit ([] ++ polling_calls Demo.queued_run [] weather_run)
     = occurrences is_submit [].
Proof.
  apply (other_tool_calls_are_left_unanswered
           (always weather_run Demo.no_chat (inr [])) Demo.loads Demo.str_other
           tt Demo.queued_run weather_run None [] [] weather_call []).
  - repeat split; reflexivity.
  - reflexivity.
  - reflexivity.
  - discriminate.
Defined.

(** X6: in a round where the arguments of the [contact_expert] call are
    not JSON that [json.loads] accepts, the round ends with the exception
    of [json.loads]; nothing is printed for the expert, no completion is
    requested and nothing is submitted. *)
Theorem arguments_that_do_not_parse_end_the_round
  (rm : Remote.t) (json_loads : string -> result pyval)
  (str_other : pyval -> string) (client : Client)
  (run0 run : Run.t) (last_id : option string) (log : list call)
  (pending : list Run.t) (tool_call : ToolCall.t) (rest : list ToolCall.t)
  (e : exn) :
  polls rm log pending run ->
  Run.status run = "requires_action" ->
  Run.required_action run = Some (tool_call :: rest) ->
  FunctionCall.name (ToolCall.function tool_call) = "contact_expert" ->
  json_loads (FunctionCall.arguments (ToolCall.function tool_call)) = Raise e ->
  runs_to (handle_call rm)
    (run_assistant_body json_loads str_other client (run0, last_id)) log
    (log ++ polling_calls run0 pending run) (Raise e).
Proof.
  intros Hpolls Hstatus Haction Hfun Hargs.
  eapply round_build_raises; try eassumption.
  apply build_tool_outputs_bad_json; assumption.
Qed.

Lemma arguments_that_do_not_parse_end_the_round_witness :
  runs_to (handle_call (always garbled_run Demo.no_chat (inr [])))
    (run_assistant_body Demo.loads Demo.str_other tt (Demo.queued_run, None)) []
    ([] ++ polling_calls Demo.queued_run [] garbled_run)
    (Raise (Exc (JSONDecodeError "Expecting value: line 1 column 1 (char 0)"))).
Proof.
  apply (arguments_that_do_not_parse_end_the_round
           (always garbled_run Demo.no_chat (inr [])) Demo.loads Demo.str_other
           tt Demo.queued_run garbled_run None [] [] garbled_call []).
  - repeat split; reflexivity.
  - reflexivity.
  - reflexivity.
  - reflexivity.
  - reflexivity.
Defined.

(** X7: in a round where the arguments of the [contact_expert] call are
    a JSON object without the key [name], or with it and without the key
    [instructions], the round ends with a [KeyError] for the first of the
    two keys that is missing (a missing [persona] raises nothing); nothing
    is printed for the expert, no completion is requested and nothing is
    submitted. *)
Theorem missing_name_or_instructions_ends_the_round
  (rm : Remote.t) (json_loads : string -> result pyval)
  (str_other : pyval -> string) (client : Client)
  (run0 run : Run.t) (last_id : option string) (log : list call)
  (pending : list Run.t) (tool_call : ToolCall.t) (rest : list ToolCall.t)
  (d : list (string * pyval)) (key : string) :
  polls rm log pending run ->
  Run.status run = "requires_action" ->
  Run.required_action run = Some (tool_call :: rest) ->
  FunctionCall.name (ToolCall.function tool_call) = "contact_expert" ->
  json_loads (FunctionCall.arguments (ToolCall.function tool_call)) = Ok (PDict d) ->
  (assoc "name" d = None /\ key = "name")
  \/ (assoc "name" d <> None /\ assoc "instructions" d = None
      /\ key = "instructions") ->
  runs_to (handle_call rm)
    (run_assistant_body json_loads str_other client (run0, last_id)) log
    (log ++ polling_calls run0 pending run) (Raise (Exc (KeyError key))).
Proof.
  intros Hpolls Hstatus Haction Hfun Hargs Hkey.
  eapply round_build_raises; try eassumption.
  eapply build_tool_outputs_missing_key; eassumption.
Qed.

Lemma missing_name_or_instructions_ends_the_round_witness :
  runs_to (handle_call (Demo.asking Demo.no_chat))
    (run_assistant_body nameless_loads Demo.str_other tt (Demo.queued_run, None))
    [] ([] ++ polling_calls Demo.queued_run [] Demo.action_run)
    (Raise (Exc (KeyError "name"))).
Proof.
  apply (missing_name_or_instructions_ends_the_round
           (Demo.asking Demo.no_chat) nameless_loads Demo.str_other tt
           Demo.queued_run Demo.action_run None [] [] Demo.chef_call []
           [ ("instructions", PStr "Suggest a menu") ] "name").
  - repeat split; reflexivity.
  - reflexivity.
  - reflexivity.
  - reflexivity.
  - reflexivity.
  - left. split; reflexivity.
Defined.

(** X8: in a round where the polled run requires action and carries no
    tool call (no required action at all, or an empty list of calls), the
    round ends with an [AttributeError], respectively an [IndexError],
    raised on reading the first call; no call is made beyond the
    polling. *)
Theorem requires_action_without_tool_call_ends_the_round
  (rm : Remote.t) (json_loads : string -> result pyval)
  (str_other : pyval -> string) (client : Client)
  (run0 run : Run.t) (last_id : option string) (log : list call)
  (pending : list Run.t) :
  polls rm log pending run ->
  Run.status run = "requires_action" ->
  Run.required_action run = None \/ Run.required_action run = Some [] ->
  runs_to (handle_call rm)
    (run_assistant_body json_loads str_other client (run0, last_id)) log
    (log ++ polling_calls run0 pending run)
    (Raise (Exc (match Run.required_action run with
                 | None =>
                     AttributeError
                       "'NoneType' object has no attribute 'submit_tool_outputs'"
                 | Some _ => IndexError "list index out of range"
                 end))).
Proof.
  intros Hpolls Hstatus Haction. unfold run_assistant_body.
  eapply runs_to_bindM_ok; [apply check_run_polls; exact Hpolls |].
  rewrite Hstatus, String.eqb_refl.
  destruct Haction as [-> | ->]; apply runs_to_ret.
Qed.

Lemma requires_action_without_tool_call_ends_the_round_witness :
  runs_to (handle_call (always bare_action_run Demo.no_chat (inr [])))
    (run_assistant_body Demo.loads Demo.str_other tt (Demo.queued_run, None)) []
    ([] ++ polling_calls Demo.queued_run [] bare_action_run)
    (Raise (Exc (IndexError "list index out of range"))).
Proof.
  apply (requires_action_without_tool_call_ends_the_round
           (always bare_action_run Demo.no_chat (inr [])) Demo.loads
           Demo.str_other tt Demo.queued_run bare_action_run None [] []).
  - repeat split; reflexivity.
  - reflexivity.
  - right. reflexivity.
Defined.

(** X9: in a round that lists the messages, a message whose first
    content block is not a text block (or that has no block) stops the
    printing: the messages before it are printed, none after it, and the
    round ends with a [KeyError] for [text] (an [IndexError] when the
    message has no block). *)
Theorem message_without_text_stops_the_printing
  (rm : Remote.t) (json_loads : string -> result pyval)
  (str_other : pyval -> string) (client : Client)
  (run0 run : Run.t) (last_id : option string) (log : list call)
  (pending : list Run.t) (texts : list Message.t) (bad : Message.t)
  (rest : list Message.t) (lines : list call) :
  polls rm log pending run ->
  Run.status run <> "requires_action" ->
  Remote.messages_list rm (occurrences is_messages_list log)
  = inr (texts ++ bad :: rest) ->
  printed_lines texts = Some lines ->
  first_text bad = None ->
  runs_to (handle_call rm)
    (run_assistant_body json_loads str_other client (run0, last_id)) log
    (log ++ polling_calls run0 pending run
         ++ [ MessagesList (Run.thread_id run) (after_cursor last_id) ]
         ++ lines)
    (Raise (Exc (match Message.content bad with
                 | [] => IndexError "list index out of range"
                 | _ :: _ => KeyError "text"
                 end))).
Proof.
  intros Hpolls Hstatus Hlist Hlines Hbad. apply String.eqb_neq in Hstatus.
  unfold run_assistant_body.
  eapply runs_to_bindM_ok; [apply check_run_polls; exact Hpolls |].
  rewrite Hstatus. unfold bindM at 1.
  call_by ltac:(rewrite occurrences_after_polling by auto; rewrite Hlist;
                reflexivity).
  destruct (last (texts ++ bad :: rest)) as [last_message|] eqn:Hlast.
  - apply runs_to_bindM_raise.
    eapply runs_to_eq; [apply print_messages_stops; eassumption | | reflexivity].
    rewrite <- !app_assoc. reflexivity.
  - apply last_None in Hlast. destruct texts; discriminate.
Qed.

Lemma message_without_text_stops_the_printing_witness :
  runs_to
    (handle_call
       (always Demo.completed_run Demo.no_chat
          (inr ([ Demo.user_message ] ++ picture_message :: [ Demo.user_message ]))))
    (run_assistant_body Demo.loads Demo.str_other tt (Demo.queued_run, None)) []
    ([] ++ polling_calls Demo.queued_run [] Demo.completed_run
        ++ [ MessagesList "thread_1" (after_cursor None) ]
        ++ [ Print (assistant_line "Plan a trip") ])
    (Raise (Exc (KeyError "text"))).
Proof.
  apply (message_without_text_stops_the_printing
           (always Demo.completed_run Demo.no_chat
              (inr ([ Demo.user_message ] ++ picture_message
                                          :: [ Demo.user_message ])))
           Demo.loads Demo.str_other tt Demo.queued_run Demo.completed_run None
           [] [] [ Demo.user_message ] picture_message [ Demo.user_message ]
           [ Print (assistant_line "Plan a trip") ]).
  - repeat split; reflexivity.
  - discriminate.
  - reflexivity.
  - reflexivity.
  - reflexivity.
Defined.

(** * More on the loop as a whole and on the entry point (lines 90-161) *)

(** X10: whatever [Exception] a round of the driver ends with, after
    any number of rounds, [main] catches it, prints its text and ends by
    [sys.exit(1)]: the process exits with code 1 and the driver makes no
    further call. *)
Theorem exception_in_a_round_is_printed_and_exits_with_code_1
  (rm : Remote.t) (json_loads : string -> result pyval)
  (str_other : pyval -> string) (log log1 log2 : list call) (line : string)
  (run0 : Run.t) (st : Run.t * option string) (e : exception) :
  Remote.client_init rm = inr tt ->
  Remote.stdin rm (occurrences is_input log) = inr line ->
  line <> "quit" ->
  Remote.create_and_run rm (occurrences is_create_and_run log) = inr run0 ->
  rounds rm json_loads str_other tt (run0, None)
    (log ++ prelude_calls ++ [ create_call line ]) st log1 ->
  runs_to (handle_call rm) (run_assistant_body json_loads str_other tt st)
    log1 log2 (Raise (Exc e)) ->
  runs_to (handle_call rm) (main json_loads str_other) log
    (log2 ++ [ Print (str_exception e) ]) (Raise (SystemExit 1))
  /\ exit_code (Raise (SystemExit 1)) = 1%Z.
Proof.
  intros Hclient Hline Hquit Hcreate Hrounds Hround. split; [| reflexivity].
  assert (Hrun :
    runs_to (handle_call rm) (run_assistant json_loads str_other tt run0)
      (log ++ prelude_calls ++ [ create_call line ]) log2 (Raise (Exc e))).
  { unfold run_assistant. eapply rounds_then; [exact Hrounds |].
    apply runs_to_while_raise. exact Hround. }
  exact (main_drives rm json_loads str_other tt log _ line run0 _
           Hclient Hline Hquit Hcreate Hrun).
Qed.

Lemma exception_in_a_round_is_printed_and_exits_with_code_1_witness :
  runs_to (handle_call (always garbled_run Demo.no_chat (inr [])))
    (main Demo.loads Demo.str_other) []
    (([] ++ prelude_calls ++ [ create_call "Plan a trip" ]
         ++ polling_calls Demo.queued_run [] garbled_run)
     ++ [ Print "Expecting value: line 1 column 1 (char 0)" ])
    (Raise (SystemExit 1))
  /\ exit_code (Raise (SystemExit 1)) = 1%Z.
Proof.
  apply (exception_in_a_round_is_printed_and_exits_with_code_1
           (always garbled_run Demo.no_chat (inr [])) Demo.loads Demo.str_other
           [] ([] ++ prelude_calls ++ [ create_call "Plan a trip" ]) _
           "Plan a trip" Demo.queued_run (Demo.queued_run, None)
           (JSONDecodeError "Expecting value: line 1 column 1 (char 0)")).
  - reflexivity.
  - reflexivity.
  - discriminate.
  - reflexivity.
  - apply rounds_none.
  - apply (exec_sound _ 40). vm_compute. reflexivity.
Defined.

(** X11: whenever, after any number of rounds, the driver polls a
    completed run and the listing it then asks for holds at least one
    message, each starting with a text block, the driver prints one line
    per message, in the order of the listing, and leaves the loop: [main]
    returns and the process exits with code 0. *)
Theorem completed_run_is_printed_and_exits_with_code_0
  (rm : Remote.t) (json_loads : string -> result pyval)
  (str_other : pyval -> string) (log log1 : list call) (line : string)
  (run0 run : Run.t) (st : Run.t * option string) (pending : list Run.t)
  (data : list Message.t) (last_message : Message.t) (lines : list call) :
  Remote.client_init rm = inr tt ->
  Remote.stdin rm (occurrences is_input log) = inr line ->
  line <> "quit" ->
  Remote.create_and_run rm (occurrences is_create_and_run log) = inr run0 ->
  rounds rm json_loads str_other tt (run0, None)
    (log ++ prelude_calls ++ [ create_call line ]) st log1 ->
  polls rm log1 pending run ->
  Run.status run = "completed" ->
  Remote.messages_list rm (occurrences is_messages_list log1) = inr data ->
  last data = Some last_message ->
  printed_lines data = Some lines ->
  runs_to (handle_call rm) (main json_loads str_other) log
    (log1 ++ polling_calls (fst st) pending run
          ++ [ MessagesList (Run.thread_id run) (after_cursor (snd st)) ]
          ++ lines)
    (Ok tt)
  /\ exit_code (Ok tt) = 0%Z
  /\ length lines = length data.
Proof.
  intros Hclient Hline Hquit Hcreate Hrounds Hpolls Hstatus Hlist Hlast Hlines.
  split; [| split; [reflexivity |]].
  - assert (Hrun :
      runs_to (handle_call rm) (run_assistant json_loads str_other tt run0)
        (log ++ prelude_calls ++ [ create_call line ])
        (log1 ++ polling_calls (fst st) pending run
              ++ [ MessagesList (Run.thread_id run) (after_cursor (snd st)) ]
              ++ lines)
        (Ok tt)).
    { unfold run_assistant. eapply rounds_then; [exact Hrounds |].
      apply runs_to_while_break. destruct st as [run1 last_id].
      eapply runs_to_eq; [| reflexivity |].
      - eapply round_listing; try eassumption. rewrite Hstatus. reflexivity.
      - rewrite Hstatus. reflexivity. }
    exact (main_drives rm json_loads str_other tt log _ line run0 _
             Hclient Hline Hquit Hcreate Hrun).
  - clear - Hlines. revert lines Hlines.
    induction data as [|message rest IH]; intros lines Hlines; cbn in Hlines.
    + injection Hlines as <-. reflexivity.
    + destruct (first_text message); [| discriminate].
      destruct (printed_lines rest) as [rest_lines|]; [| discriminate].
      injection Hlines as <-. cbn. f_equal. apply IH. reflexivity.
Qed.

Lemma completed_run_is_printed_and_exits_with_code_0_witness :
  runs_to (handle_call Demo.happy) (main Demo.loads Demo.str_other) []
    (([] ++ prelude_calls ++ [ create_call "Plan a trip" ])
     ++ polling_calls Demo.queued_run
          [Demo.queued_run; Demo.in_progress_run] Demo.completed_run
     ++ [ MessagesList "thread_1" (after_cursor None) ]
     ++ [ Print (assistant_line "Plan a trip") ])
    (Ok tt)
  /\ exit_code (Ok tt) = 0%Z
  /\ length [ Print (assistant_line "Plan a trip") ] = length [ Demo.user_message ].
Proof.
  apply (completed_run_is_printed_and_exits_with_code_0 Demo.happy Demo.loads
           Demo.str_other [] ([] ++ prelude_calls ++ [ create_call "Plan a trip" ])
           "Plan a trip" Demo.queued_run Demo.completed_run
           (Demo.queued_run, None) [Demo.queued_run; Demo.in_progress_run]
           [ Demo.user_message ] Demo.user_message
           [ Print (assistant_line "Plan a trip") ]).
  - reflexivity.
  - reflexivity.
  - discriminate.
  - reflexivity.
  - apply rounds_none.
  - repeat split; reflexivity.
  - reflexivity.
  - reflexivity.
  - reflexivity.
  - reflexivity.
Defined.

(** X12: an exception raised before the [try] block, by the client's
    constructor or by the reading of the input line, is not caught: [main]
    ends with it without printing it, no call goes to the service, and the
    process exits with code 1. *)
Theorem failure_before_the_try_block_is_not_caught
  (rm : Remote.t) (json_loads : string -> result pyval)
  (str_other : pyval -> string) (log : list call) (e : exception) :
  Remote.client_init rm = inl e
  \/ (Remote.client_init rm = inr tt
      /\ Remote.stdin rm (occurrences is_input log) = inl e) ->
  runs_to (handle_call rm) (main json_loads str_other) log
    (log ++ match Remote.client_init rm with
            | inl _ => [ OpenAI_new ]
            | inr _ => prelude_calls
            end)
    (Raise (Exc e))
  /\ exit_code (Raise (Exc e)) = 1%Z
  /\ occurrences is_remote
       (match Remote.client_init rm with
        | inl _ => [ OpenAI_new ]
        | inr _ => prelude_calls
        end) = 0.
Proof.
  intros Hfail. split; [| split; [reflexivity |]].
  2: { destruct (Remote.client_init rm); reflexivity. }
  unfold main, bindM at 1.
  destruct Hfail as [Hclient | [Hclient Hline]]; rewrite Hclient.
  - call_by ltac:(rewrite Hclient; reflexivity). apply runs_to_ret.
  - call_by ltac:(rewrite Hclient; reflexivity).
    eapply runs_to_eq; [apply runs_to_bindM_raise | | reflexivity].
    + eapply runs_to_eq; [apply handle_user_input_reads | reflexivity |].
      rewrite occurrences_app. cbn. rewrite Nat.add_0_r, Hline. reflexivity.
    + rewrite <- app_assoc. reflexivity.
Qed.

Lemma failure_before_the_try_block_is_not_caught_witness :
  runs_to
    (handle_call
       (Remote.mk (inl (OpenAIError "The api_key client option must be set"))
          (fun _ => inr "Plan a trip") (fun _ => Demo.no_chat)
          (fun _ => inr Demo.queued_run) (fun _ => inr Demo.completed_run)
          (fun _ => inr Demo.completed_run) (fun _ => inr [])))
    (main Demo.loads Demo.str_other) [] ([] ++ [ OpenAI_new ])
    (Raise (Exc (OpenAIError "The api_key client option must be set")))
  /\ exit_code
       (Raise (Exc (OpenAIError "The api_key client option must be set")))
     = 1%Z
  /\ occurrences is_remote [ OpenAI_new ] = 0.
Proof.
  apply (failure_before_the_try_block_is_not_caught
           (Remote.mk (inl (OpenAIError "The api_key client option must be set"))
              (fun _ => inr "Plan a trip") (fun _ => Demo.no_chat)
              (fun _ => inr Demo.queued_run) (fun _ => inr Demo.completed_run)
              (fun _ => inr Demo.completed_run) (fun _ => inr []))
           Demo.loads Demo.str_other []
           (OpenAIError "The api_key client option must be set")).
  left. reflexivity.
Defined.

(** X13: when the thread and its run cannot be created, [main] prints
    the text of the exception and ends by [sys.exit(1)]: the driver is not
    started, so no status is queried, and the process exits with code 1. *)
Theorem failed_creation_is_printed_and_exits_with_code_1
  (rm : Remote.t) (json_loads : string -> result pyval)
  (str_other : pyval -> string) (log : list call) (line : string)
  (e : exception) :
  Remote.client_init rm = inr tt ->
  Remote.stdin rm (occurrences is_input log) = inr line ->
  line <> "quit" ->
  Remote.create_and_run rm (occurrences is_create_and_run log) = inl e ->
  runs_to (handle_call rm) (main json_loads str_other) log
    (log ++ prelude_calls
         ++ [ create_call line; Print (str_exception e) ])
    (Raise (SystemExit 1))
  /\ exit_code (Raise (SystemExit 1)) = 1%Z.
Proof.
  intros Hclient Hline Hquit Hcreate. split; [| reflexivity].
  unfold main, bindM at 1.
  call_by ltac:(rewrite Hclient; reflexivity).
  eapply runs_to_bindM_ok.
  - eapply runs_to_eq; [apply handle_user_input_reads | reflexivity |].
    rewrite occurrences_app. cbn. rewrite Nat.add_0_r, Hline. reflexivity.
  - apply String.eqb_neq in Hquit. rewrite Hquit.
    eapply runs_to_try_except_caught.
    + unfold bindM.
      call_by ltac:(rewrite !occurrences_app; cbn; rewrite !Nat.add_0_r, Hcreate;
                    reflexivity).
      apply runs_to_ret.
    + reflexivity.
    + call_step. apply runs_to_ret_eq; [| reflexivity].
      rewrite <- !app_assoc. reflexivity.
Qed.

Lemma failed_creation_is_printed_and_exits_with_code_1_witness :
  runs_to
    (handle_call
       (Remote.mk (inr tt) (fun _ => inr "Plan a trip") (fun _ => Demo.no_chat)
          (fun _ => inl (OpenAIError "Rate limit reached"))
          (fun _ => inr Demo.completed_run)
          (fun _ => inr Demo.completed_run) (fun _ => inr [])))
    (main Demo.loads Demo.str_other) []
    ([] ++ prelude_calls
        ++ [ create_call "Plan a trip"; Print "Rate limit reached" ])
    (Raise (SystemExit 1))
  /\ exit_code (Raise (SystemExit 1)) = 1%Z.
Proof.
  apply (failed_creation_is_printed_and_exits_with_code_1
           (Remote.mk (inr tt) (fun _ => inr "Plan a trip")
              (fun _ => Demo.no_chat)
              (fun _ => inl (OpenAIError "Rate limit reached"))
              (fun _ => inr Demo.completed_run)
              (fun _ => inr Demo.completed_run) (fun _ => inr []))
           Demo.loads Demo.str_other [] "Plan a trip"
           (OpenAIError "Rate limit reached")).
  - reflexivity.
  - reflexivity.
  - discriminate.
  - reflexivity.
Defined.

(** * Rounds one after the other *)

(** X14: a round in which an expert's reply is submitted, followed by a
    polling that ends at a completed run with messages to print, ends the
    driver's loop normally; the polling after the submission carries the
    thread and run ids of the snapshot that the submission returned, and
    the listing is asked with the cursor the loop had before. *)
Theorem reply_then_completion_ends_the_loop
  (rm : Remote.t) (json_loads : string -> result pyval)
  (str_other : pyval -> string) (client : Client)
  (run0 run run1 run2 : Run.t) (last_id : option string)
  (log log1 : list call) (pending pending2 : list Run.t)
  (tool_call : ToolCall.t) (rest : list ToolCall.t)
  (d : list (string * pyval)) (name instructions : pyval)
  (reply : string) (others : list (option string))
  (data : list Message.t) (last_message : Message.t) (lines : list call) :
  polls rm log pending run ->
  Run.status run = "requires_action" ->
  Run.required_action run = Some (tool_call :: rest) ->
  FunctionCall.name (ToolCall.function tool_call) = "contact_expert" ->
  json_loads (FunctionCall.arguments (ToolCall.function tool_call)) = Ok (PDict d) ->
  assoc "name" d = Some name ->
  assoc "instructions" d = Some instructions ->
  Remote.chat_completions rm (occurrences is_chat log)
  = inr (ChatCompletion.mk (Some reply :: others)) ->
  reply <> "" ->
  Remote.submit_tool_outputs rm (occurrences is_submit log) = inr run1 ->
  log1 = log ++ polling_calls run0 pending run
             ++ [ Print (expert_header str_other name (persona_of d) instructions)
                ; ChatCompletionsCreate
                    (expert_payload str_other name (persona_of d) instructions)
                ; Print (expert_reply_line str_other name reply)
                ; RunsSubmitToolOutputs (Run.thread_id run) (Run.id run)
                    [ reply_output tool_call reply ] ] ->
  polls rm log1 pending2 run2 ->
  Run.status run2 = "completed" ->
  Remote.messages_list rm (occurrences is_messages_list log) = inr data ->
  last data = Some last_message ->
  printed_lines data = Some lines ->
  runs_to (handle_call rm)
    (while_true (run_assistant_body json_loads str_other client) (run0, last_id))
    log
    (log1 ++ polling_calls run1 pending2 run2
          ++ [ MessagesList (Run.thread_id run2) (after_cursor last_id) ]
          ++ lines)
    (Ok tt).
Proof.
  intros Hpolls Hstatus Haction Hfun Hargs Hname Hinstr Hchat Hreply Hsubmit
    -> Hpolls2 Hstatus2 Hlist Hlast Hlines.
  eapply runs_to_while_continue.
  - eapply runs_to_eq.
    + eapply (round_with_output rm json_loads str_other client run0 run last_id
                log pending Hpolls tool_call rest);
        [exact Hstatus | exact Haction |].
      eapply (build_tool_outputs_replied rm json_loads str_other client
                tool_call d name instructions Hfun Hargs Hname Hinstr _ reply
                others); [| exact Hreply].
      rewrite occurrences_after_polling by auto. exact Hchat.
    + rewrite <- !app_assoc. reflexivity.
    + rewrite occurrences_app, occurrences_after_polling by auto.
      cbn. rewrite Nat.add_0_r, Hsubmit. reflexivity.
  - apply runs_to_while_break.
    eapply runs_to_eq; [| reflexivity |].
    + eapply round_listing; try eassumption.
      * rewrite Hstatus2. reflexivity.
      * rewrite app_assoc, occurrences_app, occurrences_after_polling by auto.
        cbn. rewrite Nat.add_0_r. exact Hlist.
    + rewrite Hstatus2. reflexivity.
Qed.

Lemma reply_then_completion_ends_the_loop_witness :
  runs_to (handle_call answering)
    (while_true (run_assistant_body Demo.loads Demo.str_other tt)
       (Demo.queued_run, None))
    []
    (([] ++ polling_calls Demo.queued_run [] Demo.action_run
         ++ [ Print (expert_header Demo.str_other (PStr "Expert Chef")
                       (persona_of Demo.chef_dict) (PStr "Suggest a menu"))
            ; ChatCompletionsCreate
                (expert_payload Demo.str_other (PStr "Expert Chef")
                   (persona_of Demo.chef_dict) (PStr "Suggest a menu"))
            ; Print (expert_reply_line Demo.str_other (PStr "Expert Chef")
                       "Try the risotto.")
            ; RunsSubmitToolOutputs "thread_1" "run_1"
                [ reply_output Demo.chef_call "Try the risotto." ] ])
     ++ polling_calls Demo.in_progress_run [] Demo.completed_run
     ++ [ MessagesList "thread_1" (after_cursor None) ]
     ++ [ Print (assistant_line "Plan a trip") ])
    (Ok tt).
Proof.
  apply (reply_then_completion_ends_the_loop answering Demo.loads
           Demo.str_other tt Demo.queued_run Demo.action_run
           Demo.in_progress_run Demo.completed_run None [] _ [] []
           Demo.chef_call [] Demo.chef_dict (PStr "Expert Chef")
           (PStr "Suggest a menu") "Try the risotto." []
           [ Demo.user_message ] Demo.user_message
           [ Print (assistant_line "Plan a trip") ]).
  - repeat split; reflexivity.
  - reflexivity.
  - reflexivity.
  - reflexivity.
  - reflexivity.
  - reflexivity.
  - reflexivity.
  - reflexivity.
  - discriminate.
  - reflexivity.
  - reflexivity.
  - repeat split; reflexivity.
  - reflexivity.
  - reflexivity.
  - reflexivity.
  - reflexivity.
Defined.

Section Stall.

Variable rm : Remote.t.
Variable json_loads : string -> result pyval.
Variable str_other : pyval -> string.
Variable client : Client.
Variable run : Run.t.
Variable tool_call : ToolCall.t.
Variable rest : list ToolCall.t.
Variable d : list (string * pyval).
Variables name instructions : pyval.

Hypothesis Hstuck : forall n, Remote.retrieve rm n = inr run.
Hypothesis Hstatus : Run.status run = "requires_action".
Hypothesis Haction : Run.required_action run = Some (tool_call :: rest).
Hypothesis Hfun :
  FunctionCall.name (ToolCall.function tool_call) = "contact_expert".
Hypothesis Hargs :
  json_loads (FunctionCall.arguments (ToolCall.function tool_call)) = Ok (PDict d).
Hypothesis Hname : assoc "name" d = Some name.
Hypothesis Hinstructions : assoc "instructions" d = Some instructions.
Hypothesis Hdown :
  forall n, exists msg, Remote.chat_completions rm n = inl (OpenAIError msg).

(** One round on the stuck run: the expert is asked, fails, and the
    driver goes round again. *)
Lemma stalled_round (st : Run.t * option string) (log : list call) :
  exists log' : list call,
    runs_to (handle_call rm)
      (run_assistant_body json_loads str_other client st) log log'
      (Ok (inl (run, snd st)))
    /\ occurrences is_submit log' = occurrences is_submit log.
Proof.
  destruct st as [run_i last_id].
  assert (Hpolls : polls rm log [] run).
  { split; [cbn; rewrite Hstuck; reflexivity |]. split; [reflexivity |].
    unfold stops_polling. rewrite Hstatus. reflexivity. }
  destruct (Hdown (occurrences is_chat log)) as [msg Hchat].
  eexists. split.
  - eapply (round_without_output rm json_loads str_other client run_i run
              last_id log [] Hpolls tool_call rest);
      [exact Hstatus | exact Haction |].
    eapply (build_tool_outputs_failed rm json_loads str_other client tool_call
              d name instructions Hfun Hargs Hname Hinstructions _ msg).
    rewrite occurrences_after_polling by auto. exact Hchat.
  - rewrite occurrences_app, occurrences_after_polling by auto.
    cbn. apply Nat.add_0_r.
Qed.

Lemma stalled_rounds_submit_nothing (st st' : Run.t * option string)
  (log log' : list call) :
  rounds rm json_loads str_other client st log st' log' ->
  occurrences is_submit log' = occurrences is_submit log.
Proof.
  induction 1 as [| st log st1 log1 st2 log2 Hround _ IH]; [reflexivity |].
  destruct (stalled_round st log) as (log1' & Hround' & Hsame).
  destruct (runs_to_det _ _ _ _ _ _ _ Hround Hround') as [-> _].
  rewrite IH. exact Hsame.
Qed.

Lemma stalled_loop_never_returns (st : Run.t * option string) (log : list call) :
  never_returns (handle_call rm)
    (while_true (run_assistant_body json_loads str_other client) st) log.
Proof.
  intros log' r Hrun.
  assert (Hpost :
    ensures (handle_call rm)
      (while_true (run_assistant_body json_loads str_other client) st) log
      (fun _ _ => True /\ False)).
  { apply (ensures_while_true (handle_call rm)
             (run_assistant_body json_loads str_other client)
             (fun _ => True) (fun _ => True) (fun _ => False));
      [| exact I | exact I].
    intros l i _ _. destruct (stalled_round i l) as (l' & Hround & _).
    eapply ensures_runs; [exact Hround |]. split; exact I. }
  destruct (Hpost log' r Hrun) as [_ []].
Qed.

End Stall.

(** X15: when the run stays at requires_action with a [contact_expert]
    call that can be read, and every completion request fails with an
    [OpenAIError], [run_assistant] never returns and never raises, and no
    round it goes through submits a tool output: the pending call is never
    answered. *)
Theorem unanswered_expert_call_stalls_the_driver
  (rm : Remote.t) (json_loads : string -> result pyval)
  (str_other : pyval -> string) (client : Client) (run0 run : Run.t)
  (log : list call) (tool_call : ToolCall.t) (rest : list ToolCall.t)
  (d : list (string * pyval)) (name instructions : pyval) :
  (forall n, Remote.retrieve rm n = inr run) ->
  Run.status run = "requires_action" ->
  Run.required_action run = Some (tool_call :: rest) ->
  FunctionCall.name (ToolCall.function tool_call) = "contact_expert" ->
  json_loads (FunctionCall.arguments (ToolCall.function tool_call)) = Ok (PDict d) ->
  assoc "name" d = Some name ->
  assoc "instructions" d = Some instructions ->
  (forall n, exists msg, Remote.chat_completions rm n = inl (OpenAIError msg)) ->
  never_returns (handle_call rm)
    (run_assistant json_loads str_other client run0) log
  /\ (forall st' log',
        rounds rm json_loads str_other client (run0, None) log st' log' ->
        occurrences is_submit log' = occurrences is_submit log).
Proof.
  intros Hstuck Hstatus Haction Hfun Hargs Hname Hinstr Hdown. split.
  - unfold run_assistant.
    eapply (stalled_loop_never_returns rm json_loads str_other client run
              tool_call rest d name instructions); eassumption.
  - intros st' log'.
    eapply (stalled_rounds_submit_nothing rm json_loads str_other client run
              tool_call rest d name instructions); eassumption.
Qed.

Lemma unanswered_expert_call_stalls_the_driver_witness :
  never_returns (handle_call (Demo.asking Demo.no_chat))
    (run_assistant Demo.loads Demo.str_other tt Demo.queued_run) []
  /\ (forall st' log',
        rounds (Demo.asking Demo.no_chat) Demo.loads Demo.str_other tt
          (Demo.queued_run, None) [] st' log' ->
        occurrences is_submit log' = occurrences is_submit []).
Proof.
  apply (unanswered_expert_call_stalls_the_driver (Demo.asking Demo.no_chat)
           Demo.loads Demo.str_other tt Demo.queued_run Demo.action_run []
           Demo.chef_call [] Demo.chef_dict (PStr "Expert Chef")
           (PStr "Suggest a menu")).
  - intros n. reflexivity.
  - reflexivity.
  - reflexivity.
  - reflexivity.
  - reflexivity.
  - reflexivity.
  - reflexivity.
  - intros n. exists "Connection error.". reflexivity.
Defined.

Section BusyLoop.

Variable rm : Remote.t.
Variable json_loads : string -> result pyval.
Variable str_other : pyval -> string.
Variable client : Client.
Variable run : Run.t.

Hypothesis Hstuck : forall n, Remote.retrieve rm n = inr run.
Hypothesis Hstatus : Run.status run = "failed" \/ Run.status run = "expired".
Hypothesis Hmessages :
  forall n, exists data last_message lines,
    Remote.messages_list rm n = inr data
    /\ last data = Some last_message
    /\ printed_lines data = Some lines.

Lemma printed_lines_do_not_sleep (data : list Message.t) :
  forall lines, printed_lines data = Some lines -> occurrences is_sleep lines = 0.
Proof.
  induction data as [|message rest IH]; intros lines Hlines; cbn in Hlines.
  - injection Hlines as <-. reflexivity.
  - destruct (first_text message); [| discriminate].
    destruct (printed_lines rest) as [rest_lines|]; [| discriminate].
    injection Hlines as <-. cbn. apply IH. reflexivity.
Qed.

(** One round on the run that has ended badly: it is polled, the
    messages are listed and printed, and the driver goes round again. *)
Lemma busy_round (st : Run.t * option string) (log : list call) :
  exists (log' : list call) (cursor : option string),
    runs_to (handle_call rm)
      (run_assistant_body json_loads str_other client st) log log'
      (Ok (inl (run, cursor)))
    /\ occurrences is_sleep log' = occurrences is_sleep log.
Proof.
  destruct st as [run_i last_id].
  assert (Hstop : stops_polling (Run.status run) = true)
    by (unfold stops_polling; destruct Hstatus as [-> | ->]; reflexivity).
  assert (Hpolls : polls rm log [] run).
  { split; [cbn; rewrite Hstuck; reflexivity |]. split; [reflexivity | exact Hstop]. }
  destruct (Hmessages (occurrences is_messages_list log))
    as (data & last_message & lines & Hlist & Hlast & Hlines).
  eexists. eexists. split.
  - eapply (failed_or_expired_round_goes_round_again rm json_loads str_other
              client run_i run last_id log [] data last_message lines);
      eassumption.
  - rewrite !occurrences_app, (printed_lines_do_not_sleep data lines Hlines).
    cbn. lia.
Qed.

Lemma busy_rounds_do_not_sleep (st st' : Run.t * option string)
  (log log' : list call) :
  rounds rm json_loads str_other client st log st' log' ->
  occurrences is_sleep log' = occurrences is_sleep log.
Proof.
  induction 1 as [| st log st1 log1 st2 log2 Hround _ IH]; [reflexivity |].
  destruct (busy_round st log) as (log1' & cursor & Hround' & Hsame).
  destruct (runs_to_det _ _ _ _ _ _ _ Hround Hround') as [-> _].
  rewrite IH. exact Hsame.
Qed.

Lemma busy_loop_never_returns (st : Run.t * option string) (log : list call) :
  never_returns (handle_call rm)
    (while_true (run_assistant_body json_loads str_other client) st) log.
Proof.
  intros log' r Hrun.
  assert (Hpost :
    ensures (handle_call rm)
      (while_true (run_assistant_body json_loads str_other client) st) log
      (fun _ _ => True /\ False)).
  { apply (ensures_while_true (handle_call rm)
             (run_assistant_body json_loads str_other client)
             (fun _ => True) (fun _ => True) (fun _ => False));
      [| exact I | exact I].
    intros l i _ _. destruct (busy_round i l) as (l' & cursor & Hround & _).
    eapply ensures_runs; [exact Hround |]. split; exact I. }
  destruct (Hpost log' r Hrun) as [_ []].
Qed.

End BusyLoop.

(** X16: when the run stays failed, or stays expired, and every listing
    holds messages to print, [run_assistant] never returns and never
    raises: the loop is left on a completed run only, so the driver goes on
    querying the status and listing the messages, and no round it goes
    through sleeps. *)
Theorem failed_run_with_messages_is_polled_for_ever
  (rm : Remote.t) (json_loads : string -> result pyval)
  (str_other : pyval -> string) (client : Client) (run0 run : Run.t)
  (log : list call) :
  (forall n, Remote.retrieve rm n = inr run) ->
  Run.status run = "failed" \/ Run.status run = "expired" ->
  (forall n, exists data last_message lines,
      Remote.messages_list rm n = inr data
      /\ last data = Some last_message
      /\ printed_lines data = Some lines) ->
  never_returns (handle_call rm)
    (run_assistant json_loads str_other client run0) log
  /\ (forall st' log',
        rounds rm json_loads str_other client (run0, None) log st' log' ->
        occurrences is_sleep log' = occurrences is_sleep log).
Proof.
  intros Hstuck Hstatus Hmessages. split.
  - unfold run_assistant.
    eapply (busy_loop_never_returns rm json_loads str_other client run);
      eassumption.
  - intros st' log'.
    eapply (busy_rounds_do_not_sleep rm json_loads str_other client run);
      eassumption.
Qed.

Lemma failed_run_with_messages_is_polled_for_ever_witness :
  never_returns (handle_call (stuck_at "failed"))
    (run_assistant Demo.loads Demo.str_other tt Demo.queued_run) []
  /\ (forall st' log',
        rounds (stuck_at "failed") Demo.loads Demo.str_other tt
          (Demo.queued_run, None) [] st' log' ->
        occurrences is_sleep log' = occurrences is_sleep []).
Proof.
  apply (failed_run_with_messages_is_polled_for_ever (stuck_at "failed")
           Demo.loads Demo.str_other tt Demo.queued_run
           (Run.mk "thread_1" "run_1" "failed" None) []).
  - intros n. reflexivity.
  - left. reflexivity.
  - intros n. exists [ Demo.user_message ], Demo.user_message,
      [ Print (assistant_line "Plan a trip") ].
    repeat split; reflexivity.
Defined.

(** * More on the script runner (lines 47-65) *)

(** X17: when the script cannot be written to the temporary file, or
    the buffer cannot be flushed, [execute_python_code_local] raises that
    exception without starting a child process and without removing the
    file: the temporary file is left on the disk (these two statements
    stand before the [try] block whose [finally] removes it). *)
Theorem script_that_does_not_reach_the_disk_leaves_the_file
  (os : OS.t) (s name : string) (fs : files) (log : list syscall)
  (e : exception) :
  OS.tmp_name os fs ".py" = inr name ->
  fs !! name = None ->
  OS.write_fails os = Some e
  \/ (OS.write_fails os = None /\ OS.flush_fails os = Some e) ->
  exists (fs' : files) (tail : list syscall),
    runs_to (handle_sys os) (execute_python_code_local s) (fs, log)
      (fs', log ++ tail) (Raise (Exc e))
    /\ is_Some (fs' !! name)
    /\ List.filter starts_or_removes tail = []
    /\ (forall path, path <> name -> fs' !! path = fs !! path).
Proof.
  intros Hname Hfresh Hfails.
  unfold execute_python_code_local, bindM at 1.
  destruct Hfails as [Hwrite | [Hwrite Hflush]].
  - exists (<[name := ""]> fs), [ NamedTemporaryFile ".py" false
                                ; FileWrite name s
                                ; FileClose name ].
    split; [| split; [| split]].
    + sys_by ltac:(rewrite Hname, Hfresh; reflexivity).
      eapply runs_to_eq.
      * eapply runs_to_try_finally.
        -- unfold bindM at 1.
           sys_by ltac:(rewrite Hwrite; reflexivity). apply runs_to_ret.
        -- eapply runs_to_bind;
             [apply (runs_to_sys os (FileClose name)) | apply runs_to_ret].
      * cbn. rewrite <- !app_assoc. reflexivity.
      * reflexivity.
    + exists "". unfold files. apply lookup_insert_eq.
    + reflexivity.
    + intros path Hpath. unfold files. apply lookup_insert_ne. congruence.
  - exists (<[name := s]> fs), [ NamedTemporaryFile ".py" false
                               ; FileWrite name s
                               ; FileFlush name
                               ; FileClose name ].
    split; [| split; [| split]].
    + sys_by ltac:(rewrite Hname, Hfresh; reflexivity).
      eapply runs_to_eq.
      * eapply runs_to_try_finally.
        -- unfold bindM at 1.
           sys_by ltac:(unfold files in *;
                        rewrite Hwrite, lookup_insert_eq, insert_insert_eq;
                        reflexivity).
           unfold bindM at 1.
           sys_by ltac:(rewrite Hflush; reflexivity). apply runs_to_ret.
        -- eapply runs_to_bind;
             [apply (runs_to_sys os (FileClose name)) | apply runs_to_ret].
      * cbn. rewrite <- !app_assoc. reflexivity.
      * reflexivity.
    + exists s. unfold files. apply lookup_insert_eq.
    + reflexivity.
    + intros path Hpath. unfold files. apply lookup_insert_ne. congruence.
Qed.

Lemma script_that_does_not_reach_the_disk_leaves_the_file_witness :
  exists (fs' : files) (tail : list syscall),
    runs_to (handle_sys full_disk) (execute_python_code_local "print('ok')")
      (∅, []) (fs', [] ++ tail)
      (Raise (Exc (OSError "[Errno 28] No space left on device")))
    /\ is_Some (fs' !! DemoOS.tmp)
    /\ List.filter starts_or_removes tail = []
    /\ (forall path, path <> DemoOS.tmp -> fs' !! path = (∅ : files) !! path).
Proof.
  apply (script_that_does_not_reach_the_disk_leaves_the_file full_disk
           "print('ok')" DemoOS.tmp ∅ []
           (OSError "[Errno 28] No space left on device")).
  - reflexivity.
  - reflexivity.
  - right. split; reflexivity.
Defined.

(** X18: when the child process cannot be started (no interpreter to
    run), the exception is not the one the [except] clause names:
    [execute_python_code_local] raises it to its caller, and the temporary
    file has been removed all the same. *)
Theorem child_that_cannot_start_raises_after_the_removal
  (os : OS.t) (s name : string) (fs fs2 : files) (log : list syscall)
  (e : exception) :
  OS.tmp_name os fs ".py" = inr name ->
  fs !! name = None ->
  OS.write_fails os = None ->
  OS.flush_fails os = None ->
  OS.child os ["python"; name] (with_script name s fs) = (fs2, inl e) ->
  (forall code err msg, e <> CalledProcessError code err msg) ->
  is_Some (fs2 !! name) ->
  runs_to (handle_sys os) (execute_python_code_local s) (fs, log)
    (delete name fs2, log ++ script_calls name s) (Raise (Exc e))
  /\ delete name fs2 !! name = None.
Proof.
  intros Hname Hfresh Hwrite Hflush Hchild Hother [content Hthere].
  split; [| unfold files; apply lookup_delete_eq].
  eapply runs_to_eq; [| reflexivity |].
  - exact (execute_python_code_local_runs os s name fs fs2 log (inl e)
             Hname Hfresh Hwrite Hflush Hchild).
  - rewrite Hthere. cbn. destruct e; try reflexivity.
    destruct (Hother returncode stderr msg). reflexivity.
Qed.

Lemma child_that_cannot_start_raises_after_the_removal_witness :
  runs_to (handle_sys no_interpreter) (execute_python_code_local "print('ok')")
    (∅, [])
    (delete DemoOS.tmp (with_script DemoOS.tmp "print('ok')" ∅),
     [] ++ script_calls DemoOS.tmp "print('ok')")
    (Raise (Exc (OSError "[Errno 2] No such file or directory: 'python'")))
  /\ delete DemoOS.tmp (with_script DemoOS.tmp "print('ok')" ∅) !! DemoOS.tmp
     = None.
Proof.
  apply (child_that_cannot_start_raises_after_the_removal no_interpreter
           "print('ok')" DemoOS.tmp ∅
           (with_script DemoOS.tmp "print('ok')" ∅) []
           (OSError "[Errno 2] No such file or directory: 'python'")).
  - reflexivity.
  - reflexivity.
  - reflexivity.
  - reflexivity.
  - reflexivity.
  - discriminate.
  - exists "print('ok')". reflexivity.
Defined.
